(** * arff_to_mysql.py: the ARFF reader and its MySQL formatter

    A shallow embedding of [arff_to_mysql.py] (Python 2).  Python [str]
    values are byte strings and are modelled by [string]; exceptions and
    the text the script writes are modelled by the small monad [M] below;
    the [Attribute] objects shared between the parser and every
    [Instance] are modelled by a store (the parser's attribute list) and
    references into it. *)

From Stdlib Require Import ZArith Ascii.
From Stdlib Require String.
From stdpp Require Import base list strings pretty.

(** ** Python string primitives used by the script *)

Module Py.

(** The bytes removed by [str.strip()] without argument. *)
Definition is_space (c : ascii) : bool :=
  match c with
  | " "%char | "009"%char | "010"%char | "011"%char | "012"%char | "013"%char => true
  | _ => false
  end.

Fixpoint lstrip (s : string) : string :=
  match s with
  | String c s' => if is_space c then lstrip s' else s
  | EmptyString => EmptyString
  end.

Definition rstrip (s : string) : string := String.rev (lstrip (String.rev s)).

(** [s.strip()] *)
Definition strip (s : string) : string := rstrip (lstrip s).

(** [s.split(sep)] for a one-character separator: never the empty list. *)
Fixpoint split (sep : ascii) (s : string) : list string :=
  match s with
  | EmptyString => [EmptyString]
  | String c s' =>
      if Ascii.eqb c sep then EmptyString :: split sep s'
      else match split sep s' with
           | w :: ws => String c w :: ws
           | [] => [String c EmptyString]
           end
  end.

(** [s.split(sep, 1)]: cut at the first separator only. *)
Fixpoint split1 (sep : ascii) (s : string) : list string :=
  match s with
  | EmptyString => [EmptyString]
  | String c s' =>
      if Ascii.eqb c sep then [EmptyString; s']
      else match split1 sep s' with
           | w :: ws => String c w :: ws
           | [] => [String c EmptyString]
           end
  end.

(** [s[1:]] *)
Definition drop_first (s : string) : string :=
  match s with
  | String _ s' => s'
  | EmptyString => EmptyString
  end.

(** [s[:-1]] *)
Fixpoint drop_last (s : string) : string :=
  match s with
  | EmptyString => EmptyString
  | String c EmptyString => EmptyString
  | String c s' => String c (drop_last s')
  end.

(** [s[1:][:-1]] *)
Definition slice_1_m1 (s : string) : string := drop_last (drop_first s).

(** [s.replace(a, b)] for one-character [a] and [b]. *)
Fixpoint replace (a b : ascii) (s : string) : string :=
  match s with
  | EmptyString => EmptyString
  | String c s' => String (if Ascii.eqb c a then b else c) (replace a b s')
  end.

(** [sep.join(l)] *)
Definition join (sep : string) (l : list string) : string := String.concat sep l.

(** [max(l, key=len)]: the first element of greatest length; [None] for
    the empty list, where Python raises [ValueError]. *)
Fixpoint max_by_len_from (best : string) (l : list string) : string :=
  match l with
  | [] => best
  | x :: l' =>
      if Nat.ltb (String.length best) (String.length x)
      then max_by_len_from x l' else max_by_len_from best l'
  end.

Definition max_by_len (l : list string) : option string :=
  match l with
  | [] => None
  | x :: l' => Some (max_by_len_from x l')
  end.

(** The one-character strings written [\n] and [\t] in the script. *)
Definition nl : string := String "010"%char EmptyString.
Definition tab : string := String "009"%char EmptyString.

(** [s in l] for a list of strings. *)
Definition str_in (s : string) (l : list string) : bool :=
  existsb (String.eqb s) l.

End Py.

(** ** Exceptions, written text, and the monad threading them *)

Inductive exn : Type :=
| IndexError
| ValueError
| TypeError (msg : string)
| AttributeError (attr : string)
| UnboundLocalError (var : string)
| re_error.

(** What the script writes: the three calls of the formatter's [out]
    (one constructor per formatter operation, carrying the text written)
    and the [print] statements of the parser. *)
Inductive event : Type :=
| OutComment (text : string)
| OutCreate (text : string)
| OutInstance (text : string)
| PrintStr (text : string)
| PrintList (l : list string).

Inductive outcome (A : Type) : Type :=
| Ok (a : A)
| Raise (e : exn).
Arguments Ok {A} a.
Arguments Raise {A} e.

(** A computation writes some text and then returns or raises. *)
Definition M (A : Type) : Type := (list event * outcome A)%type.

Definition ret {A} (a : A) : M A := ([], Ok a).
Definition raise {A} (e : exn) : M A := ([], Raise e).
Definition emit (ev : event) : M unit := ([ev], Ok tt).

Definition bind {A B} (m : M A) (k : A -> M B) : M B :=
  match m with
  | (evs, Ok a) => let '(evs', r) := k a in (evs ++ evs', r)
  | (evs, Raise e) => (evs, Raise e)
  end.

Notation "'let*' x ':=' m 'in' k" := (bind m (fun x => k))
  (at level 10, x name, m at level 100, k at level 200).
Notation "'let*' ' p ':=' m 'in' k" := (bind m (fun p => k))
  (at level 10, p pattern, m at level 100, k at level 200).

(** [l[i]] *)
Definition index {A} (l : list A) (i : nat) : M A :=
  match l !! i with
  | Some x => ret x
  | None => raise IndexError
  end.

(** Reading an attribute that may never have been assigned. *)
Definition getattr {A} (attr : string) (field : option A) : M A :=
  match field with
  | Some x => ret x
  | None => raise (AttributeError attr)
  end.

(** Reading a local variable that may never have been assigned. *)
Definition getlocal {A} (var : string) (v : option A) : M A :=
  match v with
  | Some x => ret x
  | None => raise (UnboundLocalError var)
  end.

(** [print s] *)
Definition print (s : string) : M unit := emit (PrintStr s).

(** Monadic map, left to right (a generator consumed by [join]). *)
Fixpoint mapM {A B} (f : A -> M B) (l : list A) : M (list B) :=
  match l with
  | [] => ret []
  | x :: l' => let* y := f x in let* ys := mapM f l' in ret (y :: ys)
  end.

(** ** The Python library functions the script calls

    [float], [int], [re] and [shlex] are not part of the script.  The
    program below is parametrised by them; every general theorem holds
    for any behaviour of these functions. *)

Class PyLib : Type := {
  (** the values of Python's [float] *)
  pyfloat : Type;
  (** [float(s)]; [None] when it raises [ValueError] *)
  float : string -> option pyfloat;
  (** ['%s' % x] for a float [x] *)
  str_float : pyfloat -> string;
  (** [int(s)]; [None] when it raises [ValueError] *)
  int : string -> option Z;
  (** [re.compile(pattern, re.IGNORECASE).match(s)]: [None] when the
      pattern does not compile ([re.error]), otherwise whether a match
      object (rather than Python's [None]) is returned *)
  re_compile_match : string -> string -> option bool;
  (** [shlex.split(s)]; [None] when it raises [ValueError] *)
  shlex_split : string -> option (list string)
}.

(** ** The script *)

(** [NUMERIC_TYPE], [STRING_TYPE], [DATE_TYPE], [INTEGER_TYPE], [REAL_TYPE] *)
Definition NUMERIC_TYPE : string := "decimal(20,5)".
Definition STRING_TYPE : string := "varchar(72)".
Definition DATE_TYPE : string := "timestamp".
Definition INTEGER_TYPE : string := "int".
Definition REAL_TYPE : string := NUMERIC_TYPE.

(** [Attribute.DataType] *)
Inductive DataType : Type :=
| NUMERIC | NOMINAL | STRING | DATE | RELATIONAL | INTEGER | REAL.

(** The integer behind each [DataType] constant. *)
Definition DataType_code (d : DataType) : Z :=
  match d with
  | NUMERIC => 0 | NOMINAL => 1 | STRING => 2 | DATE => 3
  | RELATIONAL => 4 | INTEGER => 5 | REAL => 6
  end.

(** The only formatter of the script. *)
Inductive Formatter : Type := MySQLFormatter.

Section Program.
Context `{L : PyLib}.

(** [imatches(word, match)]: note that [word] is the pattern. *)
Definition imatches (word match_ : string) : M bool :=
  match re_compile_match word match_ with
  | Some b => ret b
  | None => raise re_error
  end.

(** The values an [Attribute.value] can hold besides [None]. *)
Inductive pyvalue : Type :=
| VFloat (f : pyfloat)
| VInt (z : Z)
| VStr (s : string).

(** ['%s' % v] *)
Definition str_value (v : pyvalue) : string :=
  match v with
  | VFloat f => str_float f
  | VInt z => pretty z
  | VStr s => s
  end.

(** An [Attribute] object.  [datatype], [dateformat] and [accepts] are
    instance attributes that [__init__] assigns only on some paths;
    [None] here means the attribute does not exist on the object.  For
    [value], which [__init__] always assigns, [None] is Python's [None]. *)
Record Attribute : Type := mkAttribute {
  value : option pyvalue;
  name : string;
  datatype : option DataType;
  dateformat : option string;
  accepts : option (list string)
}.

Definition set_value (v : pyvalue) (a : Attribute) : Attribute :=
  mkAttribute (Some v) (name a) (datatype a) (dateformat a) (accepts a).
Definition set_datatype (d : DataType) (a : Attribute) : Attribute :=
  mkAttribute (value a) (name a) (Some d) (dateformat a) (accepts a).
Definition set_dateformat (f : string) (a : Attribute) : Attribute :=
  mkAttribute (value a) (name a) (datatype a) (Some f) (accepts a).
Definition set_accepts (l : list string) (a : Attribute) : Attribute :=
  mkAttribute (value a) (name a) (datatype a) (dateformat a) (Some l).

(** [Attribute.__init__(self, defn)] *)
Definition Attribute_init (defn : string) : M Attribute :=
  let* tokens := match shlex_split defn with
                 | Some ts => ret ts
                 | None => raise ValueError
                 end in
  let* t0 := index tokens 0 in
  let self := mkAttribute None (Py.replace " " "_" t0) None None None in
  if Nat.ltb 1 (length tokens) then
    let* t1 := index tokens 1 in
    let* is_real := imatches t1 "REAL" in
    if is_real then ret (set_datatype REAL self) else
    let* is_integer := imatches t1 "INTEGER" in
    if is_integer then ret (set_datatype INTEGER self) else
    let* is_numeric := imatches t1 "NUMERIC" in
    if is_numeric then ret (set_datatype NUMERIC self) else
    let* is_string := imatches t1 "STRING" in
    if is_string then ret (set_datatype STRING self) else
    let* is_integer2 := imatches t1 "INTEGER" in
    if is_integer2 then
      let self := set_datatype DATE self in
      if Nat.ltb 2 (length tokens) then
        let* t2 := index tokens 2 in
        ret (set_dateformat (Py.slice_1_m1 t2) self)
      else ret (set_dateformat "%Y-%m-%dT%H:%M:%S" self)
    else
    let* is_braces := imatches "{.*}" t1 in
    if is_braces then
      ret (set_accepts (Py.split "," (Py.slice_1_m1 t1)) (set_datatype NOMINAL self))
    else ret self
  else
    let* _ := print ("bad attribute specification: " +:+ defn) in
    ret self.

(** An [Instance] object.  [fields] holds the very [Attribute] objects of
    the list handed to [__init__], not copies: each entry is a reference,
    the position of the object in that list. *)
Record Instance : Type := mkInstance {
  fields : list nat
}.

(** One iteration of the loop of [Instance.__init__], at position [i];
    returns the attribute list after the mutation of [attributes[i]].
    In the [DATE] branch the name [datetime] is the module bound by
    [import datetime], which has no attribute [strptime]: evaluating
    [datetime.strptime] raises [AttributeError], which the handler for
    [ValueError] does not catch. *)
Definition Instance_field (values : list string) (attributes : list Attribute)
    (i : nat) : M (list Attribute) :=
  let* raw := index values i in
  let v := Py.strip raw in
  if String.eqb v "?" || String.eqb v "'?'" then
    ret attributes
  else
    let* a := index attributes i in
    let* dt := getattr "datatype" (datatype a) in
    match dt with
    | NUMERIC | REAL =>
        match float v with
        | Some f => ret (<[i := set_value (VFloat f) a]> attributes)
        | None =>
            let* _ := print ("Could not parse field " +:+ v) in
            ret attributes
        end
    | INTEGER =>
        match int v with
        | Some z => ret (<[i := set_value (VInt z) a]> attributes)
        | None =>
            let* _ := print ("Could not parse field " +:+ v) in
            ret attributes
        end
    | NOMINAL =>
        let* acc := getattr "accepts" (accepts a) in
        if Py.str_in (Py.slice_1_m1 v) acc then
          ret (<[i := set_value (VStr (Py.slice_1_m1 v)) a]> attributes)
        else
          let* _ := emit (PrintList acc) in
          let* _ := print ("Bad value " +:+ v +:+ " for nominal attribute "
                           +:+ name a) in
          ret attributes
    | DATE => raise (AttributeError "strptime")
    | STRING =>
        if negb (String.eqb v "?") then
          ret (<[i := set_value (VStr v) a]> attributes)
        else ret attributes
    | RELATIONAL => ret attributes
    end.

(** The loop [for i in range(0, len(attributes))], over the remaining
    indices [idx]; [fields] is [self.fields] so far. *)
Fixpoint Instance_loop (values : list string) (idx : list nat)
    (attributes : list Attribute) (fields : list nat)
    : M (list Attribute * list nat) :=
  match idx with
  | [] => ret (attributes, fields)
  | i :: idx' =>
      let* attributes' := Instance_field values attributes i in
      Instance_loop values idx' attributes' (fields ++ [i])
  end.

(** [Instance.__init__(self, defn, attributes)]: the attribute list after
    the mutations, and the new object. *)
Definition Instance_init (defn : string) (attributes : list Attribute)
    : M (list Attribute * Instance) :=
  let values := Py.split "," defn in
  let* '(attributes', fields) :=
    Instance_loop values (seq 0 (length attributes)) attributes [] in
  ret (attributes', mkInstance fields).

(** *** MySQLFormatter *)

(** The characters kept by the pattern [[^a-zA-Z0-9_\$]]. *)
Definition is_good_char (c : ascii) : bool :=
  let n := nat_of_ascii c in
  (Nat.leb 97 n && Nat.leb n 122) || (Nat.leb 65 n && Nat.leb n 90)
  || (Nat.leb 48 n && Nat.leb n 57) || Ascii.eqb c "_" || Ascii.eqb c "$".

Fixpoint sub_bad_chars (word : string) : string :=
  match word with
  | EmptyString => EmptyString
  | String c w => String (if is_good_char c then c else "_"%char) (sub_bad_chars w)
  end.

(** [MySQLFormatter.__replace_bad_chars] *)
Definition replace_bad_chars (word : string) : string :=
  "`" +:+ sub_bad_chars word +:+ "`".

(** What [__sql_type] returns: a string, or, on its last branch, the
    integer constant [Attribute.DataType.STRING]. *)
Inductive str_or_int : Type :=
| IsStr (s : string)
| IsInt (z : Z).

(** [MySQLFormatter.__sql_type] *)
Definition sql_type (attr : Attribute) : M str_or_int :=
  let* dt := getattr "datatype" (datatype attr) in
  match dt with
  | NUMERIC => ret (IsStr NUMERIC_TYPE)
  | REAL => ret (IsStr REAL_TYPE)
  | INTEGER => ret (IsStr INTEGER_TYPE)
  | DATE => ret (IsStr DATE_TYPE)
  | STRING => ret (IsStr STRING_TYPE)
  | NOMINAL =>
      let* acc := getattr "accepts" (accepts attr) in
      match Py.max_by_len acc with
      | Some longest =>
          ret (IsStr ("varchar(" +:+ pretty (String.length longest) +:+ ")"))
      | None => raise ValueError
      end
  | RELATIONAL => ret (IsInt (DataType_code STRING))
  end.

(** [MySQLFormatter.__quote_value] *)
Definition quote_value (field : Attribute) : M string :=
  match value field with
  | None => ret "NULL"
  | Some v =>
      let* dt := getattr "datatype" (datatype field) in
      match dt with
      | DATE | STRING | NOMINAL => ret ("'" +:+ str_value v +:+ "'")
      | _ => ret (str_value v)
      end
  end.

(** [MySQLFormatter.format_comment] *)
Definition format_comment (comment : string) : M unit :=
  emit (OutComment ("--" +:+ comment)).

#[global] Instance Attribute_inhabited : Inhabited Attribute :=
  populate (mkAttribute None EmptyString None None None).

(** The objects an [Instance] refers to, read in the attribute store as
    it is now.  A reference made by [Instance_init] is always a position
    of the store, which never shrinks. *)
Definition deref (store : list Attribute) (inst : Instance) : list Attribute :=
  (fun r => store !!! r) <$> fields inst.

(** [MySQLFormatter.format_instance]; [store] gives the present state of
    the objects [instance.fields] refers to. *)
Definition format_instance (table_name : string) (store : list Attribute)
    (instance : Instance) : M unit :=
  let* quoted := mapM quote_value (deref store instance) in
  emit (OutInstance ("INSERT INTO " +:+ table_name +:+ " VALUES(" +:+
                     Py.join ", " quoted +:+ ");" +:+ Py.nl)).

(** One item of the generator inside [format_create]; adding the integer
    of the last branch of [__sql_type] to a string raises [TypeError]. *)
Definition create_column (attr : Attribute) : M string :=
  let* ty := sql_type attr in
  match ty with
  | IsStr t => ret (replace_bad_chars (name attr) +:+ " " +:+ t)
  | IsInt _ => raise (TypeError "cannot concatenate 'str' and 'int' objects")
  end.

(** [MySQLFormatter.format_create] *)
Definition format_create (table_name : string) (attributes : list Attribute)
    : M unit :=
  let* columns := mapM create_column attributes in
  emit (OutCreate ("CREATE TABLE " +:+ replace_bad_chars table_name +:+
                   " (" +:+ Py.nl +:+
                   Py.join ("," +:+ Py.nl +:+ Py.tab) columns +:+
                   Py.nl +:+ ");" +:+ Py.nl +:+ Py.nl)).

(** *** Arff *)

(** An [Arff] object.  [relation] is assigned only by a [@RELATION]
    declaration: [None] means the attribute does not exist yet.
    [attributes] is also the store of the [Attribute] objects: each is
    created by one [@ATTRIBUTE] declaration and appended at once, so an
    object is identified by its position in this list. *)
Record Arff : Type := mkArff {
  header : list string;
  instances : list Instance;
  attributes : list Attribute;
  has_data : bool;
  sql_formatter : option Formatter;
  relation : option string
}.

Definition set_header (h : list string) (self : Arff) : Arff :=
  mkArff h (instances self) (attributes self) (has_data self)
         (sql_formatter self) (relation self).
Definition set_instances (l : list Instance) (self : Arff) : Arff :=
  mkArff (header self) l (attributes self) (has_data self)
         (sql_formatter self) (relation self).
Definition set_attributes (l : list Attribute) (self : Arff) : Arff :=
  mkArff (header self) (instances self) l (has_data self)
         (sql_formatter self) (relation self).
Definition set_has_data (b : bool) (self : Arff) : Arff :=
  mkArff (header self) (instances self) (attributes self) b
         (sql_formatter self) (relation self).
Definition set_relation (r : string) (self : Arff) : Arff :=
  mkArff (header self) (instances self) (attributes self) (has_data self)
         (sql_formatter self) (Some r).

(** [Arff.__parse_declaration] *)
Definition parse_declaration (self : Arff) (line : string) : M Arff :=
  let components := Py.split1 " " line in
  let* c0 := index components 0 in
  let declaration := Py.strip c0 in
  let* value :=
    if Nat.eqb (length components) 2 then
      let* c1 := index components 1 in ret (Some (Py.strip c1))
    else ret None in
  let* is_relation := imatches declaration "@RELATION" in
  if is_relation then
    let* v := getlocal "value" value in
    ret (set_relation v self)
  else
  let* is_attribute := imatches declaration "@ATTRIBUTE" in
  if is_attribute then
    let* v := getlocal "value" value in
    let* a := Attribute_init v in
    ret (set_attributes (attributes self ++ [a]) self)
  else
  let* is_data := imatches declaration "@DATA" in
  if is_data then
    let self := set_has_data true self in
    let* _ := getattr "format_create" (sql_formatter self) in
    let* rel := getattr "relation" (relation self) in
    let* _ := format_create rel (attributes self) in
    ret self
  else ret self.

(** [Arff.__parse_instance]: the object made by [Instance(line,
    self.attributes)], and [self] with its attribute objects mutated. *)
Definition parse_instance (self : Arff) (line : string) : M (Arff * Instance) :=
  let* '(attributes', inst) := Instance_init line (attributes self) in
  ret (set_attributes attributes' self, inst).

(** [line[0]] *)
Definition first_char (line : string) : M ascii :=
  match line with
  | String c _ => ret c
  | EmptyString => raise IndexError
  end.

(** The body of the loop of [__parse_file] when a formatter is attached. *)
Definition parse_line_formatter (self : Arff) (line : string) : M Arff :=
  let* c := first_char line in
  if Ascii.eqb c "%" then
    let* _ := format_comment (Py.drop_first line) in
    ret self
  else if Ascii.eqb c "@" then
    parse_declaration self line
  else if Nat.ltb 0 (String.length line) && has_data self then
    let* rel := getattr "relation" (relation self) in
    let* '(self, inst) := parse_instance self line in
    let* _ := format_instance rel (attributes self) inst in
    ret self
  else
    raise (TypeError ("Unexpected line encountered: " +:+ line)).

(** The body of the loop of [__parse_file] when no formatter is attached. *)
Definition parse_line_plain (self : Arff) (line : string) : M Arff :=
  let* c := first_char line in
  if Ascii.eqb c "%" then
    ret (set_header (header self ++ [Py.drop_first line]) self)
  else if Ascii.eqb c "@" then
    parse_declaration self line
  else if Nat.ltb 0 (String.length line) && has_data self then
    let* '(self, inst) := parse_instance self line in
    ret (set_instances (instances self ++ [inst]) self)
  else
    let* _ := print ("Unexpected line encountered:" +:+ Py.nl +:+ line) in
    ret self.

(** A [for line in f.readlines()] loop with body [body]. *)
Fixpoint for_lines (body : Arff -> string -> M Arff) (self : Arff)
    (lines : list string) : M Arff :=
  match lines with
  | [] => ret self
  | line :: lines' =>
      let* self := body self line in
      for_lines body self lines'
  end.

(** [Arff.__parse_file]; [lines] is [f.readlines()]. *)
Definition parse_file (self : Arff) (lines : list string) : M Arff :=
  match sql_formatter self with
  | Some _ => for_lines parse_line_formatter self lines
  | None => for_lines parse_line_plain self lines
  end.

(** [Arff.__init__], from the lines of the file. *)
Definition Arff_init (lines : list string) (sql_formatter : option Formatter)
    : M Arff :=
  parse_file (mkArff [] [] [] false sql_formatter None) lines.

(** [arff_to_mysql] *)
Definition arff_to_mysql (lines : list string) : M Arff :=
  Arff_init lines (Some MySQLFormatter).

End Program.

(** ** Predicates used in the statements *)

Section Predicates.
Context `{L : PyLib}.

(** The events of a [print] statement. *)
Definition is_print (ev : event) : bool :=
  match ev with
  | PrintStr _ | PrintList _ => true
  | _ => false
  end.

Definition is_out_instance (ev : event) : bool :=
  match ev with OutInstance _ => true | _ => false end.

Definition is_out_create (ev : event) : bool :=
  match ev with OutCreate _ => true | _ => false end.

(** How many row-insertion (schema-creation) statements were written. *)
Definition count_instance (evs : list event) : nat :=
  length (filter (fun ev => is_out_instance ev = true) evs).
Definition count_create (evs : list event) : nat :=
  length (filter (fun ev => is_out_create ev = true) evs).

(** What reached the formatter's [out], without the [print]ed warnings. *)
Definition formatter_output (evs : list event) : list event :=
  filter (fun ev => is_print ev = false) evs.

Definition only_prints (evs : list event) : Prop :=
  Forall (fun ev => is_print ev = true) evs.

(** The missing-value marker, bare or quoted. *)
Definition is_missing (v : string) : bool :=
  String.eqb v "?" || String.eqb v "'?'".

(** Following the words of the specification of row parsing: the value a
    trimmed field [v] yields under the type of attribute [a] when it is
    present and parses, and [None] otherwise. *)
Definition parsed_value (a : Attribute) (v : string) : option pyvalue :=
  if is_missing v then None else
  match datatype a with
  | Some NUMERIC | Some REAL => VFloat <$> float v
  | Some INTEGER => VInt <$> int v
  | Some NOMINAL =>
      match accepts a with
      | Some acc =>
          if Py.str_in (Py.slice_1_m1 v) acc
          then Some (VStr (Py.slice_1_m1 v)) else None
      | None => None
      end
  | Some STRING => Some (VStr v)
  | _ => None
  end.

(** The attribute object after a row offered it the trimmed field [v]:
    it takes the parsed value if there is one and keeps what it held
    otherwise. *)
Definition stored (a : Attribute) (v : string) : Attribute :=
  match parsed_value a v with
  | Some x => set_value x a
  | None => a
  end.

(** An attribute with one of the five types [Attribute_init] can assign. *)
Definition typed (a : Attribute) : Prop :=
  match datatype a with
  | Some NOMINAL => exists acc, accepts a = Some acc /\ acc <> []
  | Some NUMERIC | Some REAL | Some INTEGER | Some STRING => True
  | _ => False
  end.

Definition is_comment (line : string) : bool :=
  match line with
  | String c _ => Ascii.eqb c "%"
  | EmptyString => false
  end.

Definition is_declaration (line : string) : bool :=
  match line with
  | String c _ => negb (Ascii.eqb c "%") && Ascii.eqb c "@"
  | EmptyString => false
  end.

(** A data line: any line that is neither a comment nor a declaration. *)
Definition is_data_line (line : string) : bool :=
  match line with
  | String c _ => negb (Ascii.eqb c "%") && negb (Ascii.eqb c "@")
  | EmptyString => false
  end.

(** The branches of [__parse_declaration]. *)
Inductive decl : Type := DRelation | DAttribute | DData | DOther.

(** [components[0].strip()] for a line. *)
Definition keyword (line : string) : string :=
  match Py.split1 " " line with
  | c0 :: _ => Py.strip c0
  | [] => EmptyString
  end.

(** The branch the chain of [imatches] tests selects for a keyword;
    [None] when one of the tests raises. *)
Definition dispatch (declaration : string) : option decl :=
  match re_compile_match declaration "@RELATION" with
  | None => None
  | Some true => Some DRelation
  | Some false =>
      match re_compile_match declaration "@ATTRIBUTE" with
      | None => None
      | Some true => Some DAttribute
      | Some false =>
          match re_compile_match declaration "@DATA" with
          | None => None
          | Some true => Some DData
          | Some false => Some DOther
          end
      end
  end.

(** A declaration line that takes the [@DATA] branch. *)
Definition is_data_declaration (line : string) : bool :=
  is_declaration line &&
  match dispatch (keyword line) with Some DData => true | _ => false end.

(** The lines following the first [@DATA] declaration. *)
Fixpoint after_data (lines : list string) : list string :=
  match lines with
  | [] => []
  | line :: lines' => if is_data_declaration line then lines' else after_data lines'
  end.

Definition no_instance (evs : list event) : Prop :=
  Forall (fun ev => is_out_instance ev = false) evs.

(** Computations that write nothing but [print]ed text. *)
Definition prints {A} (m : M A) : Prop := only_prints m.1.

(** [returns P m]: when [m] returns, its result satisfies [P]. *)
Definition returns {A} (P : A -> Prop) (m : M A) : Prop :=
  forall evs a, m = (evs, Ok a) -> P a.

(** [components[1].strip()] when the line has a second component. *)
Definition decl_value (line : string) : option string :=
  match Py.split1 " " line with
  | [_; c1] => Some (Py.strip c1)
  | _ => None
  end.

Definition is_relation_declaration (line : string) : bool :=
  is_declaration line &&
  match dispatch (keyword line) with Some DRelation => true | _ => false end.

Definition is_attribute_declaration (line : string) : bool :=
  is_declaration line &&
  match dispatch (keyword line) with Some DAttribute => true | _ => false end.

(** Every insertion statement written is preceded by a schema statement. *)
Definition create_precedes_instances (evs : list event) : Prop :=
  forall pre text post,
    evs = pre ++ OutInstance text :: post -> exists c, OutCreate c ∈ pre.

(** A [@RELATION] declaration with a name after the keyword. *)
Definition relation_line (line : string) : Prop :=
  is_relation_declaration line = true /\ is_Some (decl_value line).

(** An [@ATTRIBUTE] declaration from which [Attribute.__init__] makes an
    attribute with a type. *)
Definition attribute_line (line : string) : Prop :=
  is_attribute_declaration line = true /\
  exists v evs a, decl_value line = Some v /\
                  Attribute_init v = (evs, Ok a) /\ is_Some (datatype a).

Definition header_line (line : string) : Prop :=
  is_comment line = true \/ relation_line line \/ attribute_line line.

(** A comment, or a data line with a field for each of [n] attributes. *)
Definition body_line (n : nat) (line : string) : Prop :=
  is_comment line = true \/
  (is_data_line line = true /\ n <= length (Py.split "," line)).

(** An input all of whose attributes get a type: a header of comments,
    relation declarations and attribute declarations from which
    [Attribute.__init__] makes an attribute with a type (which leaves out
    a declaration of a Date attribute and one with an unknown type
    token), naming the relation at least once; the [@DATA] declaration;
    then comments and data lines that have at least one field per
    declared attribute. *)
Definition typed_input (lines : list string) : Prop :=
  exists header data body,
    lines = header ++ data :: body /\
    Forall header_line header /\
    Exists relation_line header /\
    is_data_declaration data = true /\
    Forall (body_line
              (length (filter (fun l => is_attribute_declaration l = true) header)))
           body.

End Predicates.

(** ** Predicates used in the further properties *)

(** Every character of a string satisfies a test. *)
Fixpoint all_chars (P : ascii -> bool) (s : string) : bool :=
  match s with
  | EmptyString => true
  | String c s' => P c && all_chars P s'
  end.

Section MorePredicates.
Context `{L : PyLib}.

(** An attribute for which [__sql_type] has a column type. *)
Definition has_column_type (a : Attribute) : Prop :=
  typed a \/ datatype a = Some DATE.

End MorePredicates.

Definition is_out_comment (ev : event) : bool :=
  match ev with OutComment _ => true | _ => false end.

(** The comments that reached the formatter's [out]. *)
Definition comment_events (evs : list event) : list event :=
  filter (fun ev => is_out_comment ev = true) evs.

(** How many times a character occurs in a string. *)
Fixpoint count_char (c : ascii) (s : string) : nat :=
  match s with
  | EmptyString => 0
  | String d s' => (if Ascii.eqb d c then 1 else 0) + count_char c s'
  end.

Section MoreParserPredicates.
Context `{L : PyLib}.

(** The relation name after the lines, from the name [r] before them:
    that of the last [@RELATION] declaration. *)
Definition final_relation (r : option string) (lines : list string) : option string :=
  foldl (fun r l => if is_relation_declaration l then decl_value l else r) r lines.

End MoreParserPredicates.

(** A string without the character [c]. *)
Definition lacks_char (c : ascii) (s : string) : bool :=
  all_chars (fun d => negb (Ascii.eqb d c)) s.

Section StorePredicates.
Context `{L : PyLib}.

(** An attribute that holds a value has a type to render it by. *)
Definition renderable (a : Attribute) : Prop :=
  is_Some (value a) -> is_Some (datatype a).

End StorePredicates.

Section RenderingPredicates.
Context `{L : PyLib}.

(** Following the words of the claim on shared attributes: the text a
    value parsed from a field is rendered as, a string in quotes and a
    number as it prints. *)
Definition rendered_value (x : pyvalue) : string :=
  match x with
  | VStr s => "'" +:+ s +:+ "'"
  | VInt z => pretty z
  | VFloat f => str_float f
  end.

End RenderingPredicates.

(** ** A library instance to run the script on examples

    [RefLib] implements the four library functions on a fragment of their
    inputs, enough to run the script on concrete files.  The fragments:
    - [re]: patterns made of ordinary characters, [.], a [*] after one of
      these, and a brace that does not open a repeat count; any other
      pattern is answered [None];
    - [shlex.split]: the POSIX tokenizer with [whitespace_split] set and
      no comment character, as [shlex.split] configures it;
    - [float]: decimal literals without exponent, of at most 12
      significant digits and of magnitude at least 1e-4 or zero, for
      which ['%s'] prints the literal back in normal form; any other
      string is answered [None];
    - [int]: an optional sign followed by decimal digits. *)

Module Ref.

Definition is_digit (c : ascii) : bool :=
  let n := nat_of_ascii c in Nat.leb 48 n && Nat.leb n 57.

(** *** Regular expressions *)

Inductive atom : Type := Lit (c : ascii) | AnyChar.

(** ASCII lower-casing, for [re.IGNORECASE]. *)
Definition lower (c : ascii) : ascii :=
  let n := nat_of_ascii c in
  if Nat.leb 65 n && Nat.leb n 90 then ascii_of_nat (n + 32) else c.

Definition atom_ok (a : atom) (c : ascii) : bool :=
  match a with
  | Lit d => Ascii.eqb (lower d) (lower c)
  | AnyChar => negb (Ascii.eqb c "010")
  end.

Fixpoint skip_digits (s : string) : string :=
  match s with
  | String c s' => if is_digit c then skip_digits s' else s
  | EmptyString => EmptyString
  end.

(** Whether the text after an opening brace makes it a repeat count
    ([{m}], [{m,}], [{,n}], [{m,n}] or [{,}]); otherwise the brace is an
    ordinary character. *)
Definition brace_is_repeat (rest : string) : bool :=
  match rest with
  | String "}" _ => false
  | _ =>
      let r1 := skip_digits rest in
      let r2 := match r1 with String "," r => skip_digits r | _ => r1 end in
      match r2 with String "}" _ => true | _ => false end
  end.

Definition is_unsupported (c : ascii) : bool :=
  Py.str_in (String c EmptyString) ["\"; "^"; "$"; "+"; "?"; "["; "|"; "("; ")"].

(** The pattern as a list of atoms, each possibly starred; [acc] holds
    the atoms read so far, last first. *)
Fixpoint parse (p : string) (acc : list (atom * bool)) : option (list (atom * bool)) :=
  match p with
  | EmptyString => Some (rev acc)
  | String c p' =>
      if Ascii.eqb c "." then parse p' ((AnyChar, false) :: acc)
      else if Ascii.eqb c "*" then
        match acc with
        | (a, false) :: acc' => parse p' ((a, true) :: acc')
        | _ => None
        end
      else if Ascii.eqb c "{" then
        if brace_is_repeat p' then None else parse p' ((Lit c, false) :: acc)
      else if is_unsupported c then None
      else parse p' ((Lit c, false) :: acc)
  end.

(** Whether the atoms match a prefix of the string. *)
Fixpoint match_items (items : list (atom * bool)) : string -> bool :=
  match items with
  | [] => fun _ => true
  | (a, false) :: r => fun s =>
      match s with
      | String c s' => atom_ok a c && match_items r s'
      | EmptyString => false
      end
  | (a, true) :: r =>
      fix star (s : string) : bool :=
        match_items r s ||
        match s with
        | String c s' => atom_ok a c && star s'
        | EmptyString => false
        end
  end.

Definition re_compile_match (pattern s : string) : option bool :=
  match parse pattern [] with
  | Some items => Some (match_items items s)
  | None => None
  end.

(** *** shlex *)

Inductive lexstate : Type :=
| Space                       (* between tokens *)
| Word                        (* inside a token *)
| Quote (q : ascii)           (* inside a quoted part opened by [q] *)
| Esc (back : option ascii).  (* after a backslash; [back] is the quote to return to *)

Definition is_shlex_space (c : ascii) : bool :=
  match c with
  | " "%char | "009"%char | "013"%char | "010"%char => true
  | _ => false
  end.

Definition is_quote (c : ascii) : bool :=
  Ascii.eqb c "'" || Ascii.eqb c "034".

(** [tok] is the token being read, last character first; [out] the
    tokens read, last first. *)
Fixpoint lex (s : string) (st : lexstate) (tok : list ascii) (out : list string)
    : option (list string) :=
  let token := String.string_of_list_ascii (rev tok) in
  match s with
  | EmptyString =>
      match st with
      | Space => Some (rev out)
      | Word => Some (rev (token :: out))
      | Quote _ | Esc _ => None
      end
  | String c s' =>
      match st with
      | Space =>
          if is_shlex_space c then lex s' Space [] out
          else if Ascii.eqb c "\" then lex s' (Esc None) [] out
          else if is_quote c then lex s' (Quote c) [] out
          else lex s' Word [c] out
      | Word =>
          if is_shlex_space c then lex s' Space [] (token :: out)
          else if is_quote c then lex s' (Quote c) tok out
          else if Ascii.eqb c "\" then lex s' (Esc None) tok out
          else lex s' Word (c :: tok) out
      | Quote q =>
          if Ascii.eqb c q then lex s' Word tok out
          else if Ascii.eqb c "\" && Ascii.eqb q "034" then lex s' (Esc (Some q)) tok out
          else lex s' (Quote q) (c :: tok) out
      | Esc None => lex s' Word (c :: tok) out
      | Esc (Some q) =>
          if negb (Ascii.eqb c "\") && negb (Ascii.eqb c q)
          then lex s' (Quote q) (c :: "\"%char :: tok) out
          else lex s' (Quote q) (c :: tok) out
      end
  end.

Definition shlex_split (s : string) : option (list string) := lex s Space [] [].

(** *** Numbers *)

Fixpoint all_digits (s : string) : bool :=
  match s with
  | EmptyString => true
  | String c s' => is_digit c && all_digits s'
  end.

Fixpoint digits_value (s : string) (acc : Z) : Z :=
  match s with
  | EmptyString => acc
  | String c s' => digits_value s' (10 * acc + Z.of_nat (nat_of_ascii c - 48))
  end.

(** The sign and the remainder of a literal. *)
Definition split_sign (s : string) : bool * string :=
  match s with
  | String "-" s' => (true, s')
  | String "+" s' => (false, s')
  | _ => (false, s)
  end.

Definition int (s : string) : option Z :=
  let '(neg, ds) := split_sign s in
  if all_digits ds && negb (String.eqb ds EmptyString) then
    Some (if neg then - digits_value ds 0 else digits_value ds 0)%Z
  else None.

Fixpoint drop_zeros (s : string) : string :=
  match s with
  | String "0" s' => drop_zeros s'
  | _ => s
  end.

(** A short decimal: sign, integer digits without leading zeros,
    fraction digits without trailing zeros. *)
Record decimal : Type := mkDecimal {
  negative : bool;
  int_digits : string;
  frac_digits : string
}.

Definition float (s : string) : option decimal :=
  let '(neg, body) := split_sign s in
  match Py.split1 "." body with
  | ds :: rest =>
      let fs := match rest with f :: _ => f | [] => EmptyString end in
      let ds' := drop_zeros ds in
      let fs' := String.rev (drop_zeros (String.rev fs)) in
      if all_digits ds && all_digits fs
         && negb (String.eqb (ds +:+ fs) EmptyString)
         && Nat.leb (String.length ds' + String.length fs') 12
         && negb (String.eqb ds' EmptyString && String.prefix "0000" fs')
      then Some (mkDecimal neg ds' fs')
      else None
  | [] => None
  end.

Definition str_float (d : decimal) : string :=
  (if negative d then "-" else EmptyString) +:+
  (if String.eqb (int_digits d) EmptyString then "0" else int_digits d) +:+ "." +:+
  (if String.eqb (frac_digits d) EmptyString then "0" else frac_digits d).

End Ref.

#[global] Instance RefLib : PyLib := {|
  pyfloat := Ref.decimal;
  float := Ref.float;
  str_float := Ref.str_float;
  int := Ref.int;
  re_compile_match := Ref.re_compile_match;
  shlex_split := Ref.shlex_split
|}.

(** ** Concrete files and objects *)

(** A line of a file, with its newline. *)
Definition line (s : string) : string := s +:+ Py.nl.

(** The example of the specification. *)
Definition weather : list string :=
  [ line "@RELATION weather";
    line "@ATTRIBUTE outlook {sunny,overcast,rainy}";
    line "@ATTRIBUTE temperature NUMERIC";
    line "@DATA";
    line "sunny,85.0" ].

(** The same file with the nominal value in quotes. *)
Definition weather_quoted : list string :=
  [ line "@RELATION weather";
    line "@ATTRIBUTE outlook {sunny,overcast,rainy}";
    line "@ATTRIBUTE temperature NUMERIC";
    line "@DATA";
    line "'sunny',85.0" ].

Definition weather_create : string :=
  line "CREATE TABLE `weather` (" +:+
  line "`outlook` varchar(8)," +:+ Py.tab +:+
  line "`temperature` decimal(20,5)" +:+
  line ");" +:+ Py.nl.

(** A string column, a value, then the missing-value token. *)
Definition missing_after_value : list string :=
  [ line "@RELATION t";
    line "@ATTRIBUTE a STRING";
    line "@DATA";
    line "x";
    line "?" ].

(** A nominal column, an accepted value, then a value outside the set. *)
Definition rejected_after_accepted : list string :=
  [ line "@RELATION t";
    line "@ATTRIBUTE c {a,b}";
    line "@DATA";
    line "'a'";
    line "'z'" ].

(** An integer and a real column, a row that parses, then one that does not. *)
Definition unparsable_after_parsed : list string :=
  [ line "@RELATION t";
    line "@ATTRIBUTE n INTEGER";
    line "@ATTRIBUTE r REAL";
    line "@DATA";
    line "5,1.5";
    line "abc,xyz" ].

(** A Date attribute, as the dead branch of [Attribute_init] would make it. *)
Definition date_attribute : Attribute :=
  mkAttribute None "d" (Some DATE) (Some "%Y-%m-%dT%H:%M:%S") None.

(** Files with no [@DATA] line and with two. *)
Definition no_data_declaration : list string :=
  [ line "@RELATION t"; line "@ATTRIBUTE a NUMERIC" ].

Definition two_data_declarations : list string :=
  [ line "@RELATION t";
    line "@ATTRIBUTE a NUMERIC";
    line "@DATA";
    line "@ATTRIBUTE b STRING";
    line "@DATA" ].

(** A data line before any declaration. *)
Definition early_row : list string :=
  [ line "sunny,85.0"; line "@RELATION weather" ].

Definition integer_attribute (v : option pyvalue) : Attribute :=
  mkAttribute v "n" (Some INTEGER) None None.

(** Attributes as [Attribute.__init__] makes them, for the examples. *)
Definition nominal_attribute : Attribute :=
  mkAttribute None "outlook" (Some NOMINAL) None (Some ["sunny"; "overcast"; "rainy"]).

Definition untyped_attribute : Attribute :=
  mkAttribute None "d" None None None.

Definition string_attribute (v : option pyvalue) : Attribute :=
  mkAttribute v "s" (Some STRING) None None.

Definition initial_arff (f : option Formatter) : Arff :=
  mkArff [] [] [] false f None.

(** A file with a Date attribute and one data line. *)
Definition date_declaration_file : list string :=
  [ line "@RELATION t";
    line "@ATTRIBUTE d DATE";
    line "@DATA";
    line "'2020-01-01T00:00:00'" ].

(** ** Reasoning about computations *)

Lemma bind_Ok {A B} (m : M A) (k : A -> M B) evs b :
  bind m k = (evs, Ok b) ->
  exists e1 a e2, m = (e1, Ok a) /\ k a = (e2, Ok b) /\ evs = e1 ++ e2.
Proof.
  unfold bind. destruct m as [e1 [a|e]]; [|discriminate].
  destruct (k a) as [e2 r] eqn:Hk. intros [= <- ->]. eauto 6.
Qed.

Lemma bind_Raise {A B} (m : M A) (k : A -> M B) evs e :
  bind m k = (evs, Raise e) ->
  m = (evs, Raise e) \/
  exists e1 a e2, m = (e1, Ok a) /\ k a = (e2, Raise e) /\ evs = e1 ++ e2.
Proof.
  unfold bind. destruct m as [e1 [a|e']].
  - destruct (k a) as [e2 r] eqn:Hk. intros [= <- ->]. right. eauto 6.
  - intros [= <- <-]. by left.
Qed.

Lemma bind_of_Ok {A B} (m : M A) (k : A -> M B) e1 a :
  m = (e1, Ok a) -> bind m k = (e1 ++ (k a).1, (k a).2).
Proof. intros ->. unfold bind. by destruct (k a). Qed.

Lemma bind_of_Raise {A B} (m : M A) (k : A -> M B) e1 e :
  m = (e1, Raise e) -> bind m k = (e1, Raise e).
Proof. by intros ->. Qed.

Lemma bind_ret {A B} (a : A) (k : A -> M B) : bind (ret a) k = k a.
Proof. unfold bind, ret. by destruct (k a). Qed.

(** Splitting an equation [bind m k = (evs, Ok b)] in hypothesis [H]. *)
Ltac bind_inv H :=
  let e1 := fresh "e" in
  let e2 := fresh "e" in
  let a := fresh "a" in
  let Hm := fresh "Hm" in
  let Hev := fresh "Hev" in
  apply bind_Ok in H as (e1 & a & e2 & Hm & H & Hev).

Lemma count_instance_app e1 e2 :
  count_instance (e1 ++ e2) = count_instance e1 + count_instance e2.
Proof. unfold count_instance. by rewrite filter_app, length_app. Qed.

Lemma count_create_app e1 e2 :
  count_create (e1 ++ e2) = count_create e1 + count_create e2.
Proof. unfold count_create. by rewrite filter_app, length_app. Qed.

Lemma only_prints_app e1 e2 :
  only_prints e1 -> only_prints e2 -> only_prints (e1 ++ e2).
Proof. apply Forall_app_2. Qed.

Lemma only_prints_count_instance evs : only_prints evs -> count_instance evs = 0.
Proof.
  induction 1 as [|ev evs Hev _ IH]; [done|].
  unfold count_instance in *. rewrite filter_cons.
  destruct ev; try discriminate; by rewrite decide_False.
Qed.

Lemma only_prints_count_create evs : only_prints evs -> count_create evs = 0.
Proof.
  induction 1 as [|ev evs Hev _ IH]; [done|].
  unfold count_create in *. rewrite filter_cons.
  destruct ev; try discriminate; by rewrite decide_False.
Qed.

(** ** Properties of row parsing *)

Section Rows.
Context `{L : PyLib}.

Lemma typed_stored a v : typed a -> typed (stored a v).
Proof. unfold stored. by destruct (parsed_value a v). Qed.

Lemma Instance_field_prints values attrs i evs r :
  Instance_field values attrs i = (evs, r) -> only_prints evs.
Proof.
  unfold Instance_field, index, getattr, print, emit, bind, ret, raise.
  intros H. repeat case_match; simplify_eq/=; repeat constructor.
Qed.

Lemma Instance_field_Ok values attrs i a evs attrs' :
  attrs !! i = Some a ->
  Instance_field values attrs i = (evs, Ok attrs') ->
  exists raw, values !! i = Some raw /\
    attrs' = <[i := stored a (Py.strip raw)]> attrs.
Proof.
  intros Ha H. unfold Instance_field, index in H. rewrite Ha in H.
  destruct (values !! i) as [raw|] eqn:Hraw; [|discriminate].
  exists raw. split; [done|].
  unfold stored, parsed_value, is_missing.
  rewrite bind_ret in H.
  destruct (String.eqb (Py.strip raw) "?" || String.eqb (Py.strip raw) "'?'")
    eqn:Hmiss.
  { inversion H; subst. by rewrite list_insert_id. }
  apply orb_false_iff in Hmiss as [Hq _].
  rewrite bind_ret in H. unfold getattr in H.
  destruct (datatype a) as [dt|]; [|discriminate]. rewrite bind_ret in H.
  destruct dt; simpl in H; rewrite ?Hq in H.
  all: unfold print, emit, bind, ret, raise in H; simpl in H.
  all: repeat case_match; simplify_eq/=.
  all: rewrite ?list_insert_id by done.
  all: congruence.
Qed.

(** A field that is present is always digested when its attribute has a
    type: whatever the text, no exception. *)
Lemma Instance_field_total values attrs i a raw :
  attrs !! i = Some a -> typed a -> values !! i = Some raw ->
  exists evs, Instance_field values attrs i
              = (evs, Ok (<[i := stored a (Py.strip raw)]> attrs)).
Proof.
  intros Ha Ht Hraw.
  destruct (Instance_field values attrs i) as [evs [attrs'|e]] eqn:H.
  { destruct (Instance_field_Ok _ _ _ _ _ _ Ha H) as (raw' & ? & ->).
    simplify_eq. eauto. }
  exfalso. unfold Instance_field, index in H. rewrite Ha, Hraw in H.
  rewrite bind_ret in H. unfold typed in Ht.
  destruct (_ || _); [discriminate|].
  rewrite bind_ret in H. unfold getattr in H.
  destruct (datatype a) as [[]|]; try done; rewrite bind_ret in H.
  all: unfold print, emit, bind, ret, raise in H; simpl in H.
  all: repeat case_match; simplify_eq/=.
  destruct Ht as (acc & ? & _). congruence.
Qed.

Lemma Instance_loop_prints values idx : forall attrs fs evs r,
  Instance_loop values idx attrs fs = (evs, r) -> only_prints evs.
Proof.
  induction idx as [|i idx IH]; intros attrs fs evs r H; simpl in H.
  - inversion H. constructor.
  - destruct (Instance_field values attrs i) as [e1 [attrs1|e]] eqn:Hf.
    + erewrite bind_of_Ok in H by done.
      destruct (Instance_loop values idx attrs1 (fs ++ [i])) as [e2 r2] eqn:Hl.
      simpl in H. inversion H; subst. apply only_prints_app.
      * eapply Instance_field_prints; eauto.
      * eapply IH; eauto.
    + erewrite bind_of_Raise in H by done. inversion H; subst.
      eapply Instance_field_prints; eauto.
Qed.

Lemma Instance_loop_Ok values n : forall k attrs fs evs attrs' fs',
  k + n <= length attrs ->
  Instance_loop values (seq k n) attrs fs = (evs, Ok (attrs', fs')) ->
  fs' = fs ++ seq k n /\ length attrs' = length attrs /\
  forall j a, attrs !! j = Some a ->
    if decide (k <= j < k + n)
    then exists raw, values !! j = Some raw /\
                     attrs' !! j = Some (stored a (Py.strip raw))
    else attrs' !! j = Some a.
Proof.
  induction n as [|n IH]; intros k attrs fs evs attrs' fs' Hlen H; simpl in H.
  - inversion H; subst. rewrite app_nil_r. repeat split.
    intros j a Ha. by rewrite decide_False by lia.
  - bind_inv H.
    destruct (lookup_lt_is_Some_2 attrs k ltac:(lia)) as [ak Hak].
    destruct (Instance_field_Ok _ _ _ _ _ _ Hak Hm) as (raw & Hraw & ->).
    apply IH in H as (-> & Hl & Hj); [|rewrite length_insert; lia].
    rewrite length_insert in Hl. subst evs.
    split; [by rewrite <- app_assoc|]. split; [done|].
    intros j a Ha. specialize (Hj j).
    destruct (decide (j = k)) as [->|Hne].
    + rewrite list_lookup_insert_eq in Hj by (apply lookup_lt_is_Some; eauto).
      specialize (Hj _ eq_refl). rewrite decide_False in Hj by lia.
      rewrite decide_True by lia. simplify_eq. eauto.
    + rewrite list_lookup_insert_ne in Hj by done. specialize (Hj _ Ha).
      destruct (decide (S k <= j < S k + n)).
      * by rewrite decide_True by lia.
      * by rewrite decide_False by lia.
Qed.

Lemma Instance_loop_total values n : forall k attrs fs,
  k + n <= length attrs -> k + n <= length values -> Forall typed attrs ->
  exists evs attrs',
    Instance_loop values (seq k n) attrs fs = (evs, Ok (attrs', fs ++ seq k n))
    /\ Forall typed attrs'.
Proof.
  induction n as [|n IH]; intros k attrs fs Hla Hlv Ht; simpl.
  - exists [], attrs. by rewrite app_nil_r.
  - destruct (lookup_lt_is_Some_2 attrs k ltac:(lia)) as [a Ha].
    destruct (lookup_lt_is_Some_2 values k ltac:(lia)) as [raw Hraw].
    assert (typed a) as Hta by (eapply Forall_lookup_1; eauto).
    destruct (Instance_field_total _ _ _ _ _ Ha Hta Hraw) as [e1 Hf].
    destruct (IH (S k) (<[k := stored a (Py.strip raw)]> attrs) (fs ++ [k]))
      as (e2 & attrs' & Hl & Ht').
    { rewrite length_insert. lia. }
    { lia. }
    { apply Forall_insert; [done|]. by apply typed_stored. }
    exists (e1 ++ e2), attrs'. split; [|done].
    erewrite bind_of_Ok by done. rewrite Hl. simpl. by rewrite <- app_assoc.
Qed.

(** A row with fewer fields than attributes: the loop reaches the first
    absent position and the indexing raises. *)
Lemma Instance_loop_short values n : forall k attrs fs,
  k <= length values < k + n -> k + n <= length attrs ->
  exists evs e,
    Instance_loop values (seq k n) attrs fs = (evs, Raise e) /\
    (Forall typed attrs -> e = IndexError).
Proof.
  induction n as [|n IH]; intros k attrs fs Hlv Hla; [lia|]. simpl.
  destruct (lookup_lt_is_Some_2 attrs k ltac:(lia)) as [a Ha].
  destruct (decide (k = length values)) as [->|Hne].
  - exists [], IndexError. split; [|done].
    unfold Instance_field, index.
    by rewrite (lookup_ge_None_2 values (length values)) by lia.
  - destruct (lookup_lt_is_Some_2 values k ltac:(lia)) as [raw Hraw].
    destruct (Instance_field values attrs k) as [e1 [attrs1|e]] eqn:Hf.
    + destruct (Instance_field_Ok _ _ _ _ _ _ Ha Hf) as (raw' & ? & ->).
      simplify_eq.
      destruct (IH (S k) (<[k := stored a (Py.strip raw)]> attrs) (fs ++ [k]))
        as (e2 & e & Hl & He).
      { lia. }
      { rewrite length_insert. lia. }
      exists (e1 ++ e2), e. split.
      * erewrite bind_of_Ok by done. by rewrite Hl.
      * intros Ht. apply He. apply Forall_insert; [done|].
        apply typed_stored. eapply Forall_lookup_1; eauto.
    + exists e1, e. split; [by erewrite bind_of_Raise|].
      intros Ht. assert (typed a) as Hta by (eapply Forall_lookup_1; eauto).
      destruct (Instance_field_total _ _ _ _ _ Ha Hta Hraw) as [? Hf'].
      congruence.
Qed.

Lemma Instance_init_prints defn attrs evs r :
  Instance_init defn attrs = (evs, r) -> only_prints evs.
Proof.
  unfold Instance_init. intros H.
  destruct (Instance_loop (Py.split "," defn) (seq 0 (length attrs)) attrs [])
    as [e1 [[attrs' fs]|e]] eqn:Hl.
  - erewrite bind_of_Ok in H by done. simpl in H. inversion H; subst.
    rewrite app_nil_r. eapply Instance_loop_prints; eauto.
  - erewrite bind_of_Raise in H by done. inversion H; subst.
    eapply Instance_loop_prints; eauto.
Qed.

Lemma Instance_init_Ok defn attrs evs attrs' inst :
  Instance_init defn attrs = (evs, Ok (attrs', inst)) ->
  fields inst = seq 0 (length attrs) /\ length attrs' = length attrs /\
  forall i a, attrs !! i = Some a ->
    exists raw, Py.split "," defn !! i = Some raw /\
                attrs' !! i = Some (stored a (Py.strip raw)).
Proof.
  unfold Instance_init. intros H. bind_inv H. destruct a as [attrs1 fs].
  inversion H; subst.
  apply Instance_loop_Ok in Hm as (-> & Hl & Hj); [|simpl; lia].
  repeat split; [done|].
  intros i a Ha. specialize (Hj i a Ha).
  rewrite decide_True in Hj; [done|].
  apply lookup_lt_Some in Ha. simpl. lia.
Qed.

Lemma Instance_init_total defn attrs :
  length attrs <= length (Py.split "," defn) -> Forall typed attrs ->
  exists evs attrs' inst,
    Instance_init defn attrs = (evs, Ok (attrs', inst)) /\ Forall typed attrs'.
Proof.
  intros Hlen Ht. unfold Instance_init.
  destruct (Instance_loop_total (Py.split "," defn) (length attrs) 0 attrs [])
    as (evs & attrs' & Hl & Ht'); [simpl; lia..|done|].
  exists evs, attrs', (mkInstance ([] ++ seq 0 (length attrs))).
  split; [|done]. erewrite bind_of_Ok by done. simpl. by rewrite app_nil_r.
Qed.

End Rows.

Section RowClaims.
Context `{L : PyLib}.

Lemma deref_all (store : list Attribute) inst :
  fields inst = seq 0 (length store) -> deref store inst = store.
Proof.
  intros Hf. unfold deref. rewrite Hf. apply list_eq. intros i.
  rewrite list_lookup_fmap.
  destruct (decide (i < length store)) as [Hlt|Hge].
  - rewrite lookup_seq_lt by done. simpl.
    destruct (lookup_lt_is_Some_2 store i Hlt) as [a Ha].
    by rewrite (list_lookup_total_correct _ _ _ Ha).
  - rewrite lookup_seq_ge by lia. simpl.
    symmetry. apply lookup_ge_None_2. lia.
Qed.

Lemma data_line_first_char line :
  is_data_line line = true ->
  exists c, first_char line = ret c /\ Ascii.eqb c "%" = false /\
            Ascii.eqb c "@" = false /\ Nat.ltb 0 (String.length line) = true.
Proof.
  destruct line as [|c line]; [done|]. simpl. intros H.
  apply andb_true_iff in H as [H1 H2].
  apply negb_true_iff in H1, H2. by exists c.
Qed.

(** C10. A data line that splits into fewer fields than there are
    attributes makes [Instance.__init__] raise: nothing guards
    [values[i]], so the row is not produced at all; when every attribute
    has a type the exception is the [IndexError] of that indexing.  The
    exception leaves [__parse_file], so the run ends there without an
    insertion statement for the row. *)
Theorem C10_short_row_raises defn attrs :
  length (Py.split "," defn) < length attrs ->
  (exists evs e,
     Instance_init defn attrs = (evs, Raise e) /\
     (Forall typed attrs -> e = IndexError)) /\
  (forall self rest,
     attributes self = attrs -> has_data self = true ->
     is_data_line defn = true ->
     exists evs e,
       parse_file self (defn :: rest) = (evs, Raise e) /\
       count_instance evs = 0).
Proof.
  intros Hshort.
  assert (exists evs e, Instance_init defn attrs = (evs, Raise e) /\
            (Forall typed attrs -> e = IndexError)) as Hinit.
  { destruct (Instance_loop_short (Py.split "," defn) (length attrs) 0 attrs [])
      as (evs & e & Hl & He); [simpl; lia..|].
    exists evs, e. split; [|done].
    unfold Instance_init. by erewrite bind_of_Raise. }
  split; [done|].
  intros self rest <- Hdata Hline.
  destruct Hinit as (evs & e & Hinit & _).
  destruct (data_line_first_char _ Hline) as (c & Hc & Hp & Ha & Hlen).
  assert (only_prints evs) as Hpr by (eapply Instance_init_prints; eauto).
  unfold parse_file.
  destruct (sql_formatter self); simpl.
  - unfold parse_line_formatter. rewrite Hc, bind_ret, Hp, Ha, Hlen, Hdata.
    simpl. unfold getattr. destruct (relation self) as [rel|].
    + rewrite bind_ret. unfold parse_instance. rewrite Hinit. simpl.
      exists evs, e. split; [done|]. by apply only_prints_count_instance.
    + by exists [], (AttributeError "relation").
  - unfold parse_line_plain. rewrite Hc, bind_ret, Hp, Ha, Hlen, Hdata.
    simpl. unfold parse_instance. rewrite Hinit. simpl.
    exists evs, e. split; [done|]. by apply only_prints_count_instance.
Qed.

End RowClaims.

(** ** Properties of declarations and of the formatter *)

Section Declarations.
Context `{L : PyLib}.

Lemma only_prints_no_instance evs : only_prints evs -> no_instance evs.
Proof. intros H. eapply Forall_impl; [exact H|]. by intros []. Qed.

Lemma no_instance_app e1 e2 :
  no_instance e1 -> no_instance e2 -> no_instance (e1 ++ e2).
Proof. apply Forall_app_2. Qed.

Lemma no_instance_count evs : no_instance evs -> count_instance evs = 0.
Proof.
  induction 1 as [|ev evs Hev _ IH]; [done|].
  unfold count_instance in *. rewrite filter_cons.
  rewrite decide_False; [done|]. by rewrite Hev.
Qed.

Lemma prints_bind {A B} (m : M A) (k : A -> M B) :
  prints m -> (forall a, prints (k a)) -> prints (bind m k).
Proof.
  unfold prints, bind. destruct m as [e1 [a|e]]; simpl; [|done].
  intros H1 H2. specialize (H2 a). destruct (k a) as [e2 r]. simpl in *.
  by apply only_prints_app.
Qed.

Lemma prints_ret {A} (a : A) : prints (ret a).
Proof. constructor. Qed.

Lemma prints_raise {A} e : prints (@raise A e).
Proof. constructor. Qed.

Lemma returns_bind {A B} (P : B -> Prop) (m : M A) (k : A -> M B) :
  (forall a, returns P (k a)) -> returns P (bind m k).
Proof.
  intros Hk evs b H. apply bind_Ok in H as (e1 & a & e2 & _ & H & _).
  eapply Hk; eauto.
Qed.

Lemma returns_ret {A} (P : A -> Prop) (a : A) : P a -> returns P (ret a).
Proof. intros HP evs a' H. by inversion H; subst. Qed.

Lemma split1_shape sep s :
  (exists c0, Py.split1 sep s = [c0]) \/ (exists c0 c1, Py.split1 sep s = [c0; c1]).
Proof.
  induction s as [|c s IH]; simpl; [eauto|].
  destruct (Ascii.eqb c sep); [eauto|].
  destruct IH as [[c0 ->]|(c0 & c1 & ->)]; eauto.
Qed.

Lemma split_nonempty sep s : Py.split sep s <> [].
Proof.
  destruct s as [|c s]; simpl; [done|].
  destruct (Ascii.eqb c sep); [done|]. by destruct (Py.split sep s).
Qed.

(** Events and results of a [mapM] whose function writes nothing. *)
Lemma mapM_silent {A B} (f : A -> M B) l evs r :
  (forall x e r', f x = (e, r') -> e = []) ->
  mapM f l = (evs, r) -> evs = [].
Proof.
  intros Hf. revert evs r. induction l as [|x l IH]; intros evs r H; simpl in H.
  - by inversion H.
  - destruct (f x) as [e1 [y|e]] eqn:Hx.
    + pose proof (Hf _ _ _ Hx) as ->.
      erewrite bind_of_Ok in H by done. simpl in H.
      destruct (mapM f l) as [e2 [ys|e]] eqn:Hl.
      * pose proof (IH _ _ eq_refl) as ->. simpl in H. by inversion H.
      * pose proof (IH _ _ eq_refl) as ->. simpl in H. by inversion H.
    + pose proof (Hf _ _ _ Hx) as ->. simpl in H. by inversion H.
Qed.

Lemma mapM_total {A B} (f : A -> M B) (P : A -> Prop) l :
  (forall x, P x -> exists y, f x = ([], Ok y)) ->
  Forall P l -> exists ys, mapM f l = ([], Ok ys).
Proof.
  intros Hf. induction 1 as [|x l Hx _ [ys IH]]; simpl; [by eexists|].
  destruct (Hf x Hx) as [y ->]. rewrite IH. by eexists.
Qed.

Lemma create_column_silent attr e r : create_column attr = (e, r) -> e = [].
Proof.
  unfold create_column, sql_type, getattr, bind, ret, raise.
  intros H. repeat case_match; simplify_eq/=; done.
Qed.

Lemma quote_value_silent field e r : quote_value field = (e, r) -> e = [].
Proof.
  unfold quote_value, getattr, bind, ret, raise.
  intros H. repeat case_match; simplify_eq/=; done.
Qed.

Lemma create_column_total attr :
  typed attr -> exists col, create_column attr = ([], Ok col).
Proof.
  unfold typed, create_column, sql_type, getattr.
  destruct (datatype attr) as [[]|]; try done; intros Ht; simpl; eauto.
  destruct Ht as (acc & -> & Hne). destruct acc; [done|]. simpl. eauto.
Qed.

Lemma quote_value_total field :
  typed field -> exists q, quote_value field = ([], Ok q).
Proof.
  unfold typed, quote_value, getattr.
  destruct (value field); [|eauto].
  destruct (datatype field) as [[]|]; try done; simpl; eauto.
Qed.

(** [format_create] writes one schema statement or raises having written
    nothing. *)
Lemma format_create_events table attrs evs r :
  format_create table attrs = (evs, r) ->
  match r with
  | Ok _ => exists text, evs = [OutCreate text]
  | Raise _ => evs = []
  end.
Proof.
  unfold format_create. intros H.
  destruct (mapM create_column attrs) as [e1 [cols|e]] eqn:Hm.
  - pose proof (mapM_silent _ _ _ _ create_column_silent Hm) as ->.
    simpl in H. inversion H. eauto.
  - pose proof (mapM_silent _ _ _ _ create_column_silent Hm) as ->.
    simpl in H. by inversion H.
Qed.

Lemma format_create_total table attrs :
  Forall typed attrs -> exists text, format_create table attrs = ([OutCreate text], Ok tt).
Proof.
  intros Ht. unfold format_create.
  destruct (mapM_total create_column typed attrs create_column_total Ht) as [cols ->].
  simpl. eauto.
Qed.

(** [format_instance] writes one insertion statement or raises having
    written nothing. *)
Lemma format_instance_events table store inst evs r :
  format_instance table store inst = (evs, r) ->
  match r with
  | Ok _ => exists text, evs = [OutInstance text]
  | Raise _ => evs = []
  end.
Proof.
  unfold format_instance. intros H.
  destruct (mapM quote_value (deref store inst)) as [e1 [qs|e]] eqn:Hm.
  - pose proof (mapM_silent _ _ _ _ quote_value_silent Hm) as ->.
    simpl in H. inversion H. eauto.
  - pose proof (mapM_silent _ _ _ _ quote_value_silent Hm) as ->.
    simpl in H. by inversion H.
Qed.

Lemma format_instance_total table store inst :
  Forall typed (deref store inst) ->
  exists text, format_instance table store inst = ([OutInstance text], Ok tt).
Proof.
  intros Ht. unfold format_instance.
  destruct (mapM_total quote_value typed _ quote_value_total Ht) as [qs ->].
  simpl. eauto.
Qed.

Lemma Attribute_init_prints defn evs r :
  Attribute_init defn = (evs, r) -> only_prints evs.
Proof.
  intros H. change evs with (evs, r).1. rewrite <- H. clear H.
  unfold Attribute_init, imatches, index, print, emit.
  repeat first
    [ apply prints_bind; [|intros ?]
    | apply prints_ret | apply prints_raise
    | by repeat constructor
    | case_match ].
Qed.

(** The types [Attribute_init] can leave on the object. *)
Lemma Attribute_init_datatype defn evs a :
  Attribute_init defn = (evs, Ok a) ->
  dateformat a = None /\
  (datatype a = None \/ datatype a = Some REAL \/ datatype a = Some INTEGER \/
   datatype a = Some NUMERIC \/ datatype a = Some STRING \/
   (datatype a = Some NOMINAL /\ exists acc, accepts a = Some acc /\ acc <> [])).
Proof.
  revert evs a. unfold Attribute_init.
  apply returns_bind. intros tokens.
  apply returns_bind. intros t0.
  destruct (Nat.ltb 1 (length tokens)).
  2: { apply returns_bind. intros _. apply returns_ret. simpl. eauto. }
  apply returns_bind. intros t1.
  apply returns_bind. intros [|]; [apply returns_ret; simpl; eauto 10|].
  unfold imatches at 1 4.
  destruct (re_compile_match t1 "INTEGER") as [[|]|].
  - rewrite bind_ret. apply returns_ret. simpl. eauto 10.
  - rewrite bind_ret.
    apply returns_bind. intros [|]; [apply returns_ret; simpl; eauto 10|].
    apply returns_bind. intros [|]; [apply returns_ret; simpl; eauto 10|].
    rewrite bind_ret.
    apply returns_bind. intros [|]; apply returns_ret; simpl; [|eauto].
    split; [done|]. do 5 right. split; [done|].
    eexists. split; [done|]. apply split_nonempty.
  - intros evs a H. discriminate.
Qed.

Lemma Attribute_init_typed defn evs a :
  Attribute_init defn = (evs, Ok a) -> is_Some (datatype a) -> typed a.
Proof.
  intros H [dt Hdt]. apply Attribute_init_datatype in H as [_ H].
  unfold typed.
  destruct H as [H|[H|[H|[H|[H|[H Hacc]]]]]]; rewrite H in *; try done.
Qed.

End Declarations.

(** ** Properties of the line loop *)

Section Parser.
Context `{L : PyLib}.

(** [__parse_declaration] by the branch its keyword selects. *)
Lemma parse_declaration_dispatch self line :
  parse_declaration self line =
  match dispatch (keyword line) with
  | None => raise re_error
  | Some DRelation =>
      let* v := getlocal "value" (decl_value line) in
      ret (set_relation v self)
  | Some DAttribute =>
      let* v := getlocal "value" (decl_value line) in
      let* a := Attribute_init v in
      ret (set_attributes (attributes self ++ [a]) self)
  | Some DData =>
      let* _ := getattr "format_create" (sql_formatter self) in
      let* rel := getattr "relation" (relation self) in
      let* _ := format_create rel (attributes self) in
      ret (set_has_data true self)
  | Some DOther => ret self
  end.
Proof.
  unfold parse_declaration, keyword, decl_value, dispatch, imatches.
  destruct (split1_shape " " line) as [[c0 ->]|(c0 & c1 & ->)];
    unfold index; cbn -[bind].
  all: rewrite !bind_ret.
  all: destruct (re_compile_match (Py.strip c0) "@RELATION") as [[|]|];
    [unfold getlocal; rewrite ?bind_ret; reflexivity| |reflexivity].
  all: rewrite bind_ret.
  all: destruct (re_compile_match (Py.strip c0) "@ATTRIBUTE") as [[|]|];
    [unfold getlocal; rewrite ?bind_ret; reflexivity| |reflexivity].
  all: rewrite bind_ret.
  all: destruct (re_compile_match (Py.strip c0) "@DATA") as [[|]|];
    rewrite ?bind_ret; reflexivity.
Qed.

(** The loop body with a formatter, by the kind of the line. *)
Lemma parse_line_formatter_kind self line :
  parse_line_formatter self line =
  if is_comment line then
    let* _ := format_comment (Py.drop_first line) in ret self
  else if is_declaration line then parse_declaration self line
  else if is_data_line line then
    if has_data self then
      let* rel := getattr "relation" (relation self) in
      let* '(self, inst) := parse_instance self line in
      let* _ := format_instance rel (attributes self) inst in
      ret self
    else raise (TypeError ("Unexpected line encountered: " +:+ line))
  else raise IndexError.
Proof.
  unfold parse_line_formatter. destruct line as [|c line]; [done|].
  cbn -[bind]. rewrite bind_ret.
  destruct (Ascii.eqb c "%"); [done|]. cbn -[bind].
  destruct (Ascii.eqb c "@"); [done|]. cbn -[bind]. reflexivity.
Qed.

(** The loop body without a formatter, by the kind of the line. *)
Lemma parse_line_plain_kind self line :
  parse_line_plain self line =
  if is_comment line then
    ret (set_header (header self ++ [Py.drop_first line]) self)
  else if is_declaration line then parse_declaration self line
  else if is_data_line line then
    if has_data self then
      let* '(self, inst) := parse_instance self line in
      ret (set_instances (instances self ++ [inst]) self)
    else
      let* _ := print ("Unexpected line encountered:" +:+ Py.nl +:+ line) in
      ret self
  else raise IndexError.
Proof.
  unfold parse_line_plain. destruct line as [|c line]; [done|].
  cbn -[bind]. rewrite bind_ret.
  destruct (Ascii.eqb c "%"); [done|]. cbn -[bind].
  destruct (Ascii.eqb c "@"); [done|]. cbn -[bind]. reflexivity.
Qed.

Lemma line_kinds line :
  is_comment line = true -> is_declaration line = false /\ is_data_line line = false.
Proof. destruct line as [|c line]; [done|]. simpl. by intros ->. Qed.

Lemma declaration_not_data line :
  is_declaration line = true -> is_data_line line = false.
Proof.
  destruct line as [|c line]; [done|]. simpl.
  destruct (Ascii.eqb c "%"), (Ascii.eqb c "@"); done.
Qed.

Lemma for_lines_app body self l1 l2 :
  for_lines body self (l1 ++ l2)
  = let* self' := for_lines body self l1 in for_lines body self' l2.
Proof.
  revert self. induction l1 as [|line l1 IH]; intros self; simpl.
  - by destruct (for_lines body self l2).
  - destruct (body self line) as [e1 [s1|e]]; simpl; [|done].
    rewrite IH. destruct (for_lines body s1 l1) as [e2 [s2|e]]; simpl; [|done].
    destruct (for_lines body s2 l2) as [e3 r]. simpl. by rewrite app_assoc.
Qed.

Lemma parse_declaration_events self line evs r :
  parse_declaration self line = (evs, r) -> no_instance evs.
Proof.
  rewrite parse_declaration_dispatch. unfold getlocal, getattr.
  destruct (dispatch (keyword line)) as [[]|].
  - destruct (decl_value line); intros H; inversion H; constructor.
  - destruct (decl_value line); [|intros H; inversion H; constructor].
    rewrite bind_ret. intros H. apply only_prints_no_instance.
    destruct (Attribute_init s) as [e1 [a|e]] eqn:Ha; simpl in H;
      inversion H; subst; rewrite ?app_nil_r;
      eapply Attribute_init_prints; eauto.
  - destruct (sql_formatter self); [|intros H; inversion H; constructor].
    rewrite bind_ret.
    destruct (relation self) as [rel|]; [|intros H; inversion H; constructor].
    rewrite bind_ret. intros H.
    destruct (format_create rel (attributes self)) as [e1 [[]|e]] eqn:Hc;
      apply format_create_events in Hc; simpl in H; inversion H; subst.
    + destruct Hc as [text ->]. by repeat constructor.
    + constructor.
  - intros H; inversion H; constructor.
  - intros H; inversion H; constructor.
Qed.

Lemma parse_declaration_Ok self line evs self' :
  parse_declaration self line = (evs, Ok self') ->
  sql_formatter self' = sql_formatter self /\
  match dispatch (keyword line) with
  | Some DData =>
      has_data self' = true /\ count_create evs = 1 /\
      exists rel, relation self = Some rel /\
                  format_create rel (attributes self) = (evs, Ok tt)
  | _ => has_data self' = has_data self /\ count_create evs = 0
  end.
Proof.
  rewrite parse_declaration_dispatch. unfold getlocal, getattr.
  destruct (dispatch (keyword line)) as [[]|].
  - destruct (decl_value line); intros H; by inversion H.
  - destruct (decl_value line); [|intros H; by inversion H].
    rewrite bind_ret. intros H. bind_inv H. inversion H; subst.
    rewrite app_nil_r. repeat split.
    apply only_prints_count_create. eapply Attribute_init_prints; eauto.
  - destruct (sql_formatter self) eqn:Hfmt; [|intros H; by inversion H].
    rewrite bind_ret.
    destruct (relation self) as [rel|]; [|intros H; by inversion H].
    rewrite bind_ret. intros H. bind_inv H. inversion H; subst.
    rewrite app_nil_r. destruct a.
    pose proof (format_create_events _ _ _ _ Hm) as [text ->].
    repeat split; simpl; eauto.
  - intros H; by inversion H.
  - intros H; by inversion H.
Qed.

Lemma formatter_line_events self line evs r :
  parse_line_formatter self line = (evs, r) -> has_data self = false ->
  no_instance evs /\
  forall self', r = Ok self' -> has_data self' = true ->
    exists text, OutCreate text ∈ evs.
Proof.
  rewrite parse_line_formatter_kind. intros H Hd.
  destruct (is_comment line).
  { inversion H; subst. split; [by repeat constructor|].
    intros ? [= <-]. congruence. }
  destruct (is_declaration line).
  { split; [eapply parse_declaration_events; eauto|].
    intros self' -> Hd'. apply parse_declaration_Ok in H as [_ H].
    destruct (dispatch (keyword line)) as [[]|]; try (destruct H; congruence).
    destruct H as (_ & _ & rel & _ & Hc).
    pose proof (format_create_events _ _ _ _ Hc) as [text ->].
    exists text. apply list_elem_of_singleton. done. }
  rewrite Hd in H.
  destruct (is_data_line line); inversion H; subst; by split; [constructor|].
Qed.

Lemma formatter_line_Ok self line evs self' :
  parse_line_formatter self line = (evs, Ok self') ->
  sql_formatter self' = sql_formatter self /\
  has_data self' = has_data self || is_data_declaration line /\
  count_instance evs = (if is_data_line line then 1 else 0) /\
  count_create evs = (if is_data_declaration line then 1 else 0) /\
  (is_data_line line = true -> has_data self = true).
Proof.
  rewrite parse_line_formatter_kind. unfold is_data_declaration. intros H.
  destruct (is_comment line) eqn:Hc.
  { apply line_kinds in Hc as [-> ->]. inversion H; subst.
    rewrite orb_false_r. done. }
  destruct (is_declaration line) eqn:Hdecl.
  { rewrite (declaration_not_data _ Hdecl). simpl.
    pose proof (parse_declaration_events _ _ _ _ H) as Hni.
    apply parse_declaration_Ok in H as [Hf H].
    rewrite (no_instance_count _ Hni).
    destruct (dispatch (keyword line)) as [[]|];
      destruct H as [-> H]; rewrite ?orb_false_r, ?orb_true_r;
      repeat split; try done; by destruct H. }
  simpl. rewrite orb_false_r.
  destruct (is_data_line line); [|discriminate].
  destruct (has_data self) eqn:Hd; [|discriminate].
  unfold getattr, parse_instance in H.
  destruct (relation self) as [rel|]; [|discriminate].
  rewrite bind_ret in H. bind_inv H. destruct a as [self1 inst].
  bind_inv Hm. destruct a as [attrs1 inst1]. inversion Hm; subst.
  bind_inv H. inversion H; subst. destruct a.
  pose proof (format_instance_events _ _ _ _ _ Hm1) as [text ->].
  pose proof (Instance_init_prints _ _ _ _ Hm0) as Hp.
  rewrite !app_nil_r, count_instance_app, count_create_app.
  rewrite (only_prints_count_instance _ Hp), (only_prints_count_create _ Hp).
  done.
Qed.

End Parser.

(** ** Properties of a whole run *)

Section Run.
Context `{L : PyLib}.

Lemma ordered_app_l e1 e2 :
  no_instance e1 -> create_precedes_instances e2 ->
  create_precedes_instances (e1 ++ e2).
Proof.
  intros Hn H2 pre text post Heq. unfold no_instance in Hn.
  apply List.app_eq_app in Heq as [l [[-> Hl]|[-> Hl]]].
  - destruct l as [|x l]; simpl in Hl.
    + destruct (H2 [] text post) as [c Hc]; [done|]. by apply elem_of_nil in Hc.
    + inversion Hl; subst. apply Forall_app in Hn as [_ Hn].
      apply Forall_cons in Hn as [Hn _]. discriminate.
  - destruct (H2 l text post Hl) as [c Hc]. exists c.
    apply elem_of_app. by right.
Qed.

Lemma ordered_after_create e1 e2 c :
  no_instance e1 -> OutCreate c ∈ e1 -> create_precedes_instances (e1 ++ e2).
Proof.
  intros Hn Hc pre text post Heq. unfold no_instance in Hn.
  apply List.app_eq_app in Heq as [l [[-> Hl]|[-> Hl]]].
  - destruct l as [|x l]; simpl in Hl.
    + exists c. by rewrite app_nil_r in Hc.
    + inversion Hl; subst. apply Forall_app in Hn as [_ Hn].
      apply Forall_cons in Hn as [Hn _]. discriminate.
  - exists c. apply elem_of_app. by left.
Qed.

Lemma formatter_loop_ordered lines : forall self evs r,
  for_lines parse_line_formatter self lines = (evs, r) ->
  has_data self = false -> create_precedes_instances evs.
Proof.
  induction lines as [|line lines IH]; intros self evs r H Hd; simpl in H.
  - inversion H. intros [|??] ?? Heq; discriminate.
  - destruct (parse_line_formatter self line) as [e1 [self1|e]] eqn:Hl.
    + destruct (formatter_line_events _ _ _ _ Hl Hd) as [Hn Hc].
      erewrite bind_of_Ok in H by done.
      destruct (for_lines parse_line_formatter self1 lines) as [e2 r2] eqn:Hr.
      simpl in H. inversion H; subst.
      destruct (has_data self1) eqn:Hd1.
      * destruct (Hc self1 eq_refl Hd1) as [c Hin].
        by eapply ordered_after_create.
      * apply ordered_app_l; [done|]. eapply IH; eauto.
    + destruct (formatter_line_events _ _ _ _ Hl Hd) as [Hn _].
      erewrite bind_of_Raise in H by done. inversion H; subst.
      rewrite <- (app_nil_r evs). apply ordered_app_l; [done|].
      intros [|??] ?? Heq; discriminate.
Qed.

Lemma formatter_loop_counts lines : forall self evs self',
  for_lines parse_line_formatter self lines = (evs, Ok self') ->
  count_instance evs = length (filter (fun l => is_data_line l = true) lines) /\
  count_create evs
  = length (filter (fun l => is_data_declaration l = true) lines) /\
  (has_data self = false ->
   filter (fun l => is_data_line l = true) lines
   = filter (fun l => is_data_line l = true) (after_data lines)).
Proof.
  induction lines as [|line lines IH]; intros self evs self' H; simpl in H.
  - by inversion H.
  - bind_inv H. rename a into self1.
    apply formatter_line_Ok in Hm as (_ & Hd1 & Hi & Hc & Hdata).
    apply IH in H as (IHi & IHc & IHa). subst evs.
    rewrite count_instance_app, count_create_app, !filter_cons, Hi, Hc, IHi, IHc.
    simpl.
    split; [by destruct (is_data_line line)|].
    split; [by destruct (is_data_declaration line)|].
    intros Hd. rewrite Hd in *. simpl in Hd1.
    destruct (is_data_line line) eqn:Hline; [by specialize (Hdata eq_refl)|].
    rewrite decide_False by done.
    destruct (is_data_declaration line); [done|]. by apply IHa.
Qed.

(** C4 (as amended). The schema statement is written once for each
    [@DATA] declaration line processed, each time from the relation name
    and the attribute list as they are at that line: not at all when the
    input has no such line, and again at every further one.  In every
    run, finished or not, no insertion statement is written before a
    schema statement. *)
Theorem C4_create_per_data_declaration lines evs r :
  arff_to_mysql lines = (evs, r) ->
  create_precedes_instances evs /\
  (forall self', r = Ok self' ->
     count_create evs
     = length (filter (fun l => is_data_declaration l = true) lines)) /\
  (forall self line e self',
     is_data_declaration line = true ->
     parse_line_formatter self line = (e, Ok self') ->
     exists rel, relation self = Some rel /\
                 format_create rel (attributes self) = (e, Ok tt)).
Proof.
  unfold arff_to_mysql, Arff_init, parse_file. simpl. intros H.
  split; [by eapply formatter_loop_ordered|].
  split.
  - intros self' ->. by apply formatter_loop_counts in H as (_ & ? & _).
  - clear. intros self line e self' Hdecl Hl.
    unfold is_data_declaration in Hdecl.
    apply andb_true_iff in Hdecl as [Hdecl Hk].
    rewrite parse_line_formatter_kind, Hdecl in Hl.
    destruct (is_comment line) eqn:Hc.
    { apply line_kinds in Hc as [? _]. congruence. }
    apply parse_declaration_Ok in Hl as [_ Hl].
    destruct (dispatch (keyword line)) as [[]|]; try discriminate.
    by destruct Hl as (_ & _ & Hl).
Qed.

End Run.

(** ** Inputs all of whose attributes get a type *)

Section TypedInputs.
Context `{L : PyLib}.

Lemma declaration_not_comment line :
  is_declaration line = true -> is_comment line = false.
Proof.
  destruct line as [|c line]; [done|]. simpl. by destruct (Ascii.eqb c "%").
Qed.

Lemma data_line_kinds line :
  is_data_line line = true -> is_comment line = false /\ is_declaration line = false.
Proof.
  destruct line as [|c line]; [done|]. simpl.
  by destruct (Ascii.eqb c "%"), (Ascii.eqb c "@").
Qed.

Lemma header_step self line :
  has_data self = false -> Forall typed (attributes self) ->
  header_line line ->
  exists e self1,
    parse_line_formatter self line = (e, Ok self1) /\
    sql_formatter self1 = sql_formatter self /\
    has_data self1 = false /\ Forall typed (attributes self1) /\
    length (attributes self1)
    = length (attributes self)
      + (if is_attribute_declaration line then 1 else 0) /\
    (is_Some (relation self) \/ relation_line line -> is_Some (relation self1)).
Proof.
  intros Hd Ht Hline. rewrite parse_line_formatter_kind.
  unfold relation_line, attribute_line, is_relation_declaration,
    is_attribute_declaration in *.
  destruct Hline as [Hc|[[Hr [v Hv]]|[Ha (v & evs & a & Hv & Hinit & Hdt)]]].
  - rewrite Hc. apply line_kinds in Hc as [Hdecl _]. rewrite Hdecl. simpl.
    eexists _, self. split; [done|]. split; [done|]. split; [done|].
    split; [done|]. split; [lia|].
    intros [?|[? _]]; [done|discriminate].
  - apply andb_true_iff in Hr as [Hdecl Hk].
    rewrite (declaration_not_comment _ Hdecl), Hdecl.
    rewrite parse_declaration_dispatch.
    destruct (dispatch (keyword line)) as [[]|]; try discriminate.
    rewrite Hv. simpl. eexists _, _. split; [done|]. simpl.
    split; [done|]. split; [done|]. split; [done|]. split; [lia|]. eauto.
  - apply andb_true_iff in Ha as [Hdecl Hk].
    rewrite (declaration_not_comment _ Hdecl), Hdecl.
    rewrite parse_declaration_dispatch.
    destruct (dispatch (keyword line)) as [[]|] eqn:Hdisp; try discriminate.
    rewrite Hv. unfold getlocal. rewrite bind_ret.
    erewrite bind_of_Ok by done. simpl.
    eexists _, _. split; [done|]. simpl.
    split; [done|]. split; [done|]. split.
    { apply Forall_app. split; [done|]. constructor; [|done].
      eapply Attribute_init_typed; eauto. }
    split; [by rewrite length_app|].
    intros [?|[? _]]; [done|discriminate].
Qed.

Lemma header_total header : forall self,
  has_data self = false -> Forall typed (attributes self) ->
  Forall header_line header ->
  exists evs self',
    for_lines parse_line_formatter self header = (evs, Ok self') /\
    sql_formatter self' = sql_formatter self /\
    has_data self' = false /\ Forall typed (attributes self') /\
    length (attributes self')
    = length (attributes self)
      + length (filter (fun l => is_attribute_declaration l = true) header) /\
    (is_Some (relation self) \/ Exists relation_line header ->
     is_Some (relation self')).
Proof.
  induction header as [|line header IH]; intros self Hd Ht Hh.
  - exists [], self. simpl. split; [done|]. split; [done|]. split; [done|].
    split; [done|]. split; [lia|].
    intros [?|HE]; [done|]. by apply Exists_nil in HE.
  - apply Forall_cons in Hh as [Hline Hh].
    destruct (header_step self line Hd Ht Hline)
      as (e1 & self1 & Hl & Hf1 & Hd1 & Ht1 & Hn1 & Hr1).
    destruct (IH self1 Hd1 Ht1 Hh)
      as (e2 & self' & Hr & Hf & Hd' & Ht' & Hn & Hrel).
    exists (e1 ++ e2), self'. simpl. erewrite bind_of_Ok by done.
    rewrite Hr. simpl. split; [done|]. split; [congruence|].
    split; [done|]. split; [done|]. split.
    + rewrite Hn, Hn1, filter_cons. case_decide as Hdec.
      * rewrite Hdec. simpl. lia.
      * destruct (is_attribute_declaration line); [done|]. simpl. lia.
    + intros [?|HE]; [apply Hrel; left; apply Hr1; by left|].
      apply Exists_cons in HE as [?|HE].
      * apply Hrel. left. apply Hr1. by right.
      * apply Hrel. by right.
Qed.

Lemma body_total body : forall self f,
  sql_formatter self = Some f -> has_data self = true ->
  is_Some (relation self) -> Forall typed (attributes self) ->
  Forall (body_line (length (attributes self))) body ->
  exists evs self', for_lines parse_line_formatter self body = (evs, Ok self').
Proof.
  induction body as [|line body IH]; intros self f Hf Hd Hrel Ht Hb.
  - by exists [], self.
  - apply Forall_cons in Hb as [Hline Hb]. simpl.
    rewrite parse_line_formatter_kind.
    destruct Hline as [Hc|[Hdata Hlen]].
    + rewrite Hc. simpl.
      destruct (IH self f Hf Hd Hrel Ht Hb) as (e2 & self' & ->).
      simpl. eauto.
    + destruct (data_line_kinds _ Hdata) as [-> ->]. rewrite Hdata, Hd.
      destruct Hrel as [rel Hrel]. rewrite Hrel. unfold getattr.
      rewrite bind_ret. unfold parse_instance.
      destruct (Instance_init_total line (attributes self) Hlen Ht)
        as (e1 & attrs' & inst & Hinit & Ht').
      destruct (Instance_init_Ok _ _ _ _ _ Hinit) as (Hfs & Hl & _).
      rewrite Hinit. cbn -[format_instance for_lines].
      destruct (format_instance_total rel attrs' inst) as [text Hfmt].
      { rewrite deref_all; [done|]. congruence. }
      rewrite Hfmt. cbn -[for_lines].
      assert (exists e2 self',
                for_lines parse_line_formatter (set_attributes attrs' self) body
                = (e2, Ok self')) as (e2 & self' & ->).
      { apply (IH _ f); simpl; [done|done|eauto|done|]. by rewrite Hl. }
      simpl. eauto.
Qed.

Lemma data_declaration_total self f :
  sql_formatter self = Some f -> is_Some (relation self) ->
  Forall typed (attributes self) ->
  forall line, is_data_declaration line = true ->
  exists text,
    parse_line_formatter self line
    = ([OutCreate text], Ok (set_has_data true self)).
Proof.
  intros Hf [rel Hrel] Ht line Hdata. unfold is_data_declaration in Hdata.
  apply andb_true_iff in Hdata as [Hdecl Hk].
  rewrite parse_line_formatter_kind, (declaration_not_comment _ Hdecl), Hdecl.
  rewrite parse_declaration_dispatch.
  destruct (dispatch (keyword line)) as [[]|]; try discriminate.
  rewrite Hf, Hrel. unfold getattr. rewrite !bind_ret.
  destruct (format_create_total rel _ Ht) as [text ->]. simpl. eauto.
Qed.

(** X15. For an input all of whose attributes get a type the run
    finishes, and the number of insertion statements written equals the
    number of data lines after the [@DATA] declaration; comment and
    declaration lines do not count. *)
Theorem X15_typed_input_one_insert_per_data_line lines :
  typed_input lines ->
  exists evs self',
    arff_to_mysql lines = (evs, Ok self') /\
    count_instance evs
    = length (filter (fun l => is_data_line l = true) (after_data lines)).
Proof.
  intros (header & data & body & -> & Hh & Hrel & Hdata & Hb).
  unfold arff_to_mysql, Arff_init, parse_file. simpl.
  set (self0 := mkArff [] [] [] false (Some MySQLFormatter) None).
  destruct (header_total header self0)
    as (e1 & self1 & Hr1 & Hf1 & Hd1 & Ht1 & Hn1 & Hrel1);
    [done|constructor|done|].
  destruct (data_declaration_total self1 MySQLFormatter Hf1
              (Hrel1 (or_intror Hrel)) Ht1 data Hdata) as [text Hr2].
  destruct (body_total body (set_has_data true self1) MySQLFormatter)
    as (e3 & self3 & Hr3); simpl; [done|done|by apply Hrel1; right|done| |].
  { by rewrite Hn1. }
  assert (for_lines parse_line_formatter self0 (header ++ data :: body)
          = (e1 ++ OutCreate text :: e3, Ok self3)) as Hrun.
  { rewrite for_lines_app. erewrite bind_of_Ok by done. simpl.
    erewrite bind_of_Ok by done. by rewrite Hr3. }
  exists (e1 ++ OutCreate text :: e3), self3. split; [done|].
  apply formatter_loop_counts in Hrun as (-> & _ & Hafter).
  by rewrite Hafter.
Qed.

End TypedInputs.

(** ** Unexpected lines and attribute types *)

Section LineClaims.
Context `{L : PyLib}.

(** C6 (as amended). A line that is neither a comment nor a declaration,
    met before the data section has begun: without a formatter the parser
    prints a warning, leaves its state as it was and goes on with the
    following lines; with a formatter attached it raises [TypeError] at
    that line and the following lines are not read. *)
Theorem C6_unexpected_line self line rest :
  has_data self = false -> is_data_line line = true ->
  (sql_formatter self = None ->
   parse_file self (line :: rest)
   = let* _ := print ("Unexpected line encountered:" +:+ Py.nl +:+ line) in
     parse_file self rest) /\
  (forall f, sql_formatter self = Some f ->
   parse_file self (line :: rest)
   = raise (TypeError ("Unexpected line encountered: " +:+ line))).
Proof.
  intros Hd Hline. destruct (data_line_kinds _ Hline) as [Hc Hdecl].
  unfold parse_file. split.
  - intros ->. simpl.
    by rewrite parse_line_plain_kind, Hc, Hdecl, Hline, Hd.
  - intros f ->. simpl.
    by rewrite parse_line_formatter_kind, Hc, Hdecl, Hline, Hd.
Qed.

(** C7 (what the code does). No declaration yields a Date attribute: the
    branch that assigns [DATE] and the date format repeats the test for
    [INTEGER] that was answered just before, so it is never taken, and a
    type token that matches nothing leaves the attribute without type
    and without date format. *)
Theorem C7_date_type_is_never_assigned defn evs a :
  Attribute_init defn = (evs, Ok a) ->
  datatype a <> Some DATE /\ dateformat a = None.
Proof.
  intros H. apply Attribute_init_datatype in H as [Hf H]. split; [|done].
  destruct H as [H|[H|[H|[H|[H|[H _]]]]]]; rewrite H; discriminate.
Qed.

End LineClaims.

(** ** The script on concrete files *)

(** C2, the claim as stated: a schema statement followed by the insertion
    statement with the values ['sunny', 85.0]. *)
Lemma C2_unquoted_row_is_not_rendered_as_claimed :
  ~ exists create,
      formatter_output (arff_to_mysql weather).1
      = [OutCreate create;
         OutInstance (line "INSERT INTO weather VALUES('sunny', 85.0);")].
Proof. intros [create H]. vm_compute in H. discriminate. Qed.

(** C2 (as amended). The schema statement of the example has the two
    columns [varchar(8)] and [decimal(20,5)].  For the row [sunny,85.0]
    the nominal field loses its first and last character before the
    membership test, is rejected with a warning, and the one insertion
    statement has the values [NULL, 85.0]; for the row ['sunny',85.0] the
    one insertion statement has the values ['sunny', 85.0]. *)
Theorem C2_weather_example :
  (arff_to_mysql weather).1
  = [OutCreate weather_create;
     PrintList ["sunny"; "overcast"; "rainy"];
     PrintStr "Bad value sunny for nominal attribute outlook";
     OutInstance (line "INSERT INTO weather VALUES(NULL, 85.0);")] /\
  (arff_to_mysql weather_quoted).1
  = [OutCreate weather_create;
     OutInstance (line "INSERT INTO weather VALUES('sunny', 85.0);")].
Proof. split; vm_compute; reflexivity. Qed.

(** C1 (what the code does at the failing input). The row [?] follows the
    row [x]: its field is recognised as missing, but only the local list
    of raw fields is updated, so the attribute still holds ['x'] and the
    second insertion statement renders ['x'], not [NULL]. *)
Theorem C1_missing_field_renders_earlier_value :
  formatter_output (arff_to_mysql missing_after_value).1
  = [OutCreate (line "CREATE TABLE `t` (" +:+ line "`a` varchar(72)" +:+
                line ");" +:+ Py.nl);
     OutInstance (line "INSERT INTO t VALUES('x');");
     OutInstance (line "INSERT INTO t VALUES('x');")].
Proof. vm_compute. reflexivity. Qed.

(** C3 (what the code does at the failing input). The value ['z'] is not
    accepted: a warning is printed and nothing is stored, so the second
    insertion statement renders the ['a'] of the first row, not [NULL]. *)
Theorem C3_rejected_nominal_renders_earlier_value :
  (arff_to_mysql rejected_after_accepted).1
  = [OutCreate (line "CREATE TABLE `t` (" +:+ line "`c` varchar(1)" +:+
                line ");" +:+ Py.nl);
     OutInstance (line "INSERT INTO t VALUES('a');");
     PrintList ["a"; "b"];
     PrintStr "Bad value 'z' for nominal attribute c";
     OutInstance (line "INSERT INTO t VALUES('a');")].
Proof. vm_compute. reflexivity. Qed.

(** C8 (what the code does at the failing inputs). The fields [abc] and
    [xyz] do not parse: two warnings are printed and nothing is stored,
    so the second insertion statement renders the [5] and [1.5] of the
    first row, not two [NULL]s.  For a Date attribute the parse raises
    [AttributeError], which the handler for [ValueError] does not catch:
    the exception leaves the parsing of the line. *)
Theorem C8_unparsable_fields :
  (arff_to_mysql unparsable_after_parsed).1
  = [OutCreate (line "CREATE TABLE `t` (" +:+ line "`n` int," +:+ Py.tab +:+
                line "`r` decimal(20,5)" +:+ line ");" +:+ Py.nl);
     OutInstance (line "INSERT INTO t VALUES(5, 1.5);");
     PrintStr "Could not parse field abc";
     PrintStr "Could not parse field xyz";
     OutInstance (line "INSERT INTO t VALUES(5, 1.5);")] /\
  Instance_init (line "'2020-01-01T00:00:00'") [date_attribute]
  = ([], Raise (AttributeError "strptime")).
Proof. split; [vm_compute|]; reflexivity. Qed.

(** C4, the claim as stated, fails: the schema statement is written no
    time for the first file and twice for the second, the second time
    with the attribute added after the first [@DATA]. *)
Lemma C4_create_not_exactly_once :
  count_create (arff_to_mysql no_data_declaration).1 = 0 /\
  (arff_to_mysql two_data_declarations).1
  = [OutCreate (line "CREATE TABLE `t` (" +:+ line "`a` decimal(20,5)" +:+
                line ");" +:+ Py.nl);
     OutCreate (line "CREATE TABLE `t` (" +:+ line "`a` decimal(20,5)," +:+
                Py.tab +:+ line "`b` varchar(72)" +:+ line ");" +:+ Py.nl)].
Proof. split; vm_compute; reflexivity. Qed.

(** C6, the claim as stated, fails for the script as it is run, with its
    formatter: the first line aborts the run and the declaration after it
    is never parsed. *)
Lemma C6_unexpected_line_aborts_run :
  arff_to_mysql early_row
  = ([], Raise (TypeError ("Unexpected line encountered: " +:+ line "sunny,85.0"))).
Proof. reflexivity. Qed.

(** C5 (what the code does at the failing input). The file declares a
    Date attribute, which the specification counts among the recognised
    types, and has one data line after [@DATA].  The attribute is left
    without type (see C7), so [format_create] raises [AttributeError] at
    the [@DATA] line: the run ends there, and no insertion statement is
    written for the one data line. *)
Theorem C5_date_declaration_run_writes_no_row :
  arff_to_mysql date_declaration_file = ([], Raise (AttributeError "datatype")) /\
  length (filter (fun l => is_data_line l = true)
                 (after_data date_declaration_file)) = 1 /\
  count_instance (arff_to_mysql date_declaration_file).1 = 0.
Proof. split; [reflexivity|]. split; reflexivity. Qed.

(** ** The general theorems at concrete inputs *)

(** C10 at a row of one field for two attributes. *)
Lemma C10_witness_one_field_two_attributes :
  length (Py.split "," "7") < length [integer_attribute None; integer_attribute None] /\
  exists evs e,
    Instance_init "7" [integer_attribute None; integer_attribute None]
    = (evs, Raise e) /\
    (Forall typed [integer_attribute None; integer_attribute None] ->
     e = IndexError).
Proof.
  assert (length (Py.split "," "7")
          < length [integer_attribute None; integer_attribute None]) as Hlt.
  { simpl. lia. }
  split; [exact Hlt|].
  exact (proj1 (C10_short_row_raises "7" _ Hlt)).
Defined.

(** C4 at the file with two [@DATA] lines. *)
Lemma C4_witness_two_data_declarations :
  count_create (arff_to_mysql two_data_declarations).1
  = length (filter (fun l => is_data_declaration l = true) two_data_declarations).
Proof.
  assert (arff_to_mysql two_data_declarations
          = ((arff_to_mysql two_data_declarations).1,
             (arff_to_mysql two_data_declarations).2)) as H.
  { by destruct (arff_to_mysql two_data_declarations). }
  destruct (C4_create_per_data_declaration _ _ _ H) as (_ & Hcount & _).
  eapply Hcount. reflexivity.
Defined.

(** X15 at the weather file with its nominal value quoted. *)
Lemma X15_witness_weather_quoted :
  typed_input weather_quoted /\
  exists evs self',
    arff_to_mysql weather_quoted = (evs, Ok self') /\
    count_instance evs
    = length (filter (fun l => is_data_line l = true) (after_data weather_quoted)).
Proof.
  assert (typed_input weather_quoted) as Hwf.
  { exists [ line "@RELATION weather";
             line "@ATTRIBUTE outlook {sunny,overcast,rainy}";
             line "@ATTRIBUTE temperature NUMERIC" ],
           (line "@DATA"), [ line "'sunny',85.0" ].
    split; [reflexivity|]. split.
    { constructor.
      { right. left. split; [reflexivity|]. eexists. reflexivity. }
      constructor.
      { right. right. split; [reflexivity|].
        eexists _, _, _. split; [reflexivity|]. split; [reflexivity|].
        eexists. reflexivity. }
      constructor; [|constructor].
      right. right. split; [reflexivity|].
      eexists _, _, _. split; [reflexivity|]. split; [reflexivity|].
      eexists. reflexivity. }
    split.
    { apply Exists_cons_hd. split; [reflexivity|]. eexists. reflexivity. }
    split; [reflexivity|].
    constructor; [|constructor]. right. split; [reflexivity|].
    vm_compute. lia. }
  split; [exact Hwf|]. exact (X15_typed_input_one_insert_per_data_line _ Hwf).
Defined.

(** C6 at a data line met first by a parser without formatter. *)
Lemma C6_witness_no_formatter :
  parse_file (mkArff [] [] [] false None None) [line "sunny,85.0"; line "% note"]
  = let* _ := print ("Unexpected line encountered:" +:+ Py.nl +:+ line "sunny,85.0") in
    parse_file (mkArff [] [] [] false None None) [line "% note"].
Proof.
  exact (proj1 (C6_unexpected_line (mkArff [] [] [] false None None)
                  (line "sunny,85.0") [line "% note"] eq_refl eq_refl) eq_refl).
Defined.

(** C7 at the declaration [d DATE]. *)
Lemma C7_witness_date_declaration :
  Attribute_init "d DATE" = ([], Ok (mkAttribute None "d" None None None)) /\
  datatype (mkAttribute None "d" None None None) <> Some DATE /\
  dateformat (mkAttribute None "d" None None None) = None.
Proof.
  split; [reflexivity|].
  exact (C7_date_type_is_never_assigned "d DATE" [] _ eq_refl).
Defined.

(** ** Further properties: the formatter *)

Section FormatterProperties.
Context `{L : PyLib}.

Lemma sub_bad_chars_good word : all_chars is_good_char (sub_bad_chars word) = true.
Proof.
  induction word as [|c w IH]; [done|]. simpl.
  destruct (is_good_char c) eqn:Hc; by rewrite ?Hc, IH.
Qed.

Lemma sub_bad_chars_id word :
  all_chars is_good_char word = true -> sub_bad_chars word = word.
Proof.
  induction word as [|c w IH]; [done|]. simpl. intros H.
  apply andb_true_iff in H as [-> H]. by rewrite IH.
Qed.

(** X1. [__replace_bad_chars] wraps the word in backquotes; between them
    stands a word of the same length whose characters are all letters,
    digits, [_] or [$]; a word made of such characters only is kept as it
    is, so sanitising twice changes nothing more. *)
Theorem X1_replace_bad_chars word :
  replace_bad_chars word = "`" +:+ sub_bad_chars word +:+ "`" /\
  String.length (sub_bad_chars word) = String.length word /\
  all_chars is_good_char (sub_bad_chars word) = true /\
  (all_chars is_good_char word = true -> sub_bad_chars word = word) /\
  sub_bad_chars (sub_bad_chars word) = sub_bad_chars word.
Proof.
  split; [done|]. split.
  { induction word as [|c w IH]; [done|]. simpl. by rewrite IH. }
  split; [apply sub_bad_chars_good|].
  split; [apply sub_bad_chars_id|].
  apply sub_bad_chars_id, sub_bad_chars_good.
Qed.

Lemma max_by_len_from_spec l : forall best,
  (Py.max_by_len_from best l = best \/ Py.max_by_len_from best l ∈ l) /\
  String.length best <= String.length (Py.max_by_len_from best l) /\
  Forall (fun x => String.length x <= String.length (Py.max_by_len_from best l)) l.
Proof.
  induction l as [|x l IH]; intros best; simpl.
  - split; [by left|]. split; [lia|constructor].
  - destruct (Nat.ltb (String.length best) (String.length x)) eqn:Hlt.
    + apply Nat.ltb_lt in Hlt. destruct (IH x) as (Hin & Hle & Hall).
      split; [right; destruct Hin as [->|Hin]; [left|by right]|].
      split; [lia|]. constructor; [lia|done].
    + apply Nat.ltb_ge in Hlt. destruct (IH best) as (Hin & Hle & Hall).
      split; [destruct Hin as [->|Hin]; [by left|right; by right]|].
      split; [lia|]. constructor; [lia|done].
Qed.

(** X2. The column of a nominal attribute is a [varchar] as wide as its
    longest accepted value: the width is the length of one of the accepted
    values and no accepted value is longer. *)
Theorem X2_nominal_column_fits_every_value a acc :
  datatype a = Some NOMINAL -> accepts a = Some acc -> acc <> [] ->
  exists longest,
    longest ∈ acc /\
    Forall (fun x => String.length x <= String.length longest) acc /\
    sql_type a
    = ([], Ok (IsStr ("varchar(" +:+ pretty (String.length longest) +:+ ")"))).
Proof.
  intros Hdt Hacc Hne. destruct acc as [|x l]; [done|].
  destruct (max_by_len_from_spec l x) as (Hin & Hle & Hall).
  exists (Py.max_by_len_from x l). split.
  { destruct Hin as [->|Hin]; [left|by right]. }
  split; [by constructor|].
  unfold sql_type. by rewrite Hdt, Hacc.
Qed.

Lemma create_column_cases a :
  (has_column_type a /\ exists col, create_column a = ([], Ok col)) \/
  (~ has_column_type a /\ exists e, create_column a = ([], Raise e)).
Proof.
  unfold has_column_type, typed, create_column, sql_type, getattr.
  destruct (datatype a) as [[]|]; simpl;
    try (left; split; [tauto|by eexists]);
    try (right; split; [intros [[]|[=]]|by eexists]).
  destruct (accepts a) as [[|x l]|]; simpl.
  - right. split; [|by eexists]. intros [(acc & [= <-] & Hne)|[=]]. done.
  - left. split; [|by eexists]. left. eauto.
  - right. split; [|by eexists]. by intros [(acc & [=] & Hne)|[=]].
Qed.

Lemma mapM_create_column_cases attrs :
  (Forall has_column_type attrs /\
   exists cols, mapM create_column attrs = ([], Ok cols)) \/
  (~ Forall has_column_type attrs /\
   exists e, mapM create_column attrs = ([], Raise e)).
Proof.
  induction attrs as [|a attrs IH]; simpl.
  - left. split; [constructor|by eexists].
  - destruct (create_column_cases a) as [[Ha [col ->]]|[Ha [e ->]]].
    + destruct IH as [[Hall [cols ->]]|[Hall [e ->]]].
      * left. split; [by constructor|by eexists].
      * right. split; [|by eexists]. intros H. by apply Forall_cons in H as [_ H].
    + right. split; [|by eexists]. intros H. by apply Forall_cons in H as [H _].
Qed.

(** X3. [format_create] writes its one statement exactly when
    [__sql_type] has a column type for every attribute; when one
    attribute has none (no type was recognised in its declaration, or
    its set of values is missing) it raises and nothing is written. *)
Theorem X3_format_create_all_or_nothing table attrs :
  (Forall has_column_type attrs ->
   exists text, format_create table attrs = ([OutCreate text], Ok tt)) /\
  (~ Forall has_column_type attrs ->
   exists e, format_create table attrs = ([], Raise e)).
Proof.
  unfold format_create.
  destruct (mapM_create_column_cases attrs) as [[Hall [cols ->]]|[Hall [e ->]]].
  - split; [intros _; simpl; by eexists|done].
  - split; [done|intros _; by eexists].
Qed.

End FormatterProperties.

(** ** Further properties: rows *)

Section RowProperties.
Context `{L : PyLib}.

Lemma stored_keeps a v :
  name (stored a v) = name a /\ datatype (stored a v) = datatype a /\
  dateformat (stored a v) = dateformat a /\ accepts (stored a v) = accepts a.
Proof. unfold stored. by destruct (parsed_value a v). Qed.

(** X4. Parsing a row changes nothing of the attributes but their
    values: the list keeps its length and every attribute its name, type,
    date format and accepted values; the row has one field per
    attribute. *)
Theorem X4_row_changes_values_only defn attrs evs attrs' inst :
  Instance_init defn attrs = (evs, Ok (attrs', inst)) ->
  length attrs' = length attrs /\
  length (fields inst) = length attrs /\
  name <$> attrs' = name <$> attrs /\
  datatype <$> attrs' = datatype <$> attrs /\
  dateformat <$> attrs' = dateformat <$> attrs /\
  accepts <$> attrs' = accepts <$> attrs.
Proof.
  intros H. apply Instance_init_Ok in H as (Hf & Hl & Hv).
  split; [done|]. split; [by rewrite Hf, length_seq|].
  assert (forall {B} (f : Attribute -> B),
            (forall a v, f (stored a v) = f a) -> f <$> attrs' = f <$> attrs)
    as Hmap.
  { intros B f Hfk. apply list_eq. intros i. rewrite !list_lookup_fmap.
    destruct (attrs !! i) as [a|] eqn:Ha.
    - destruct (Hv i a Ha) as (raw & _ & ->). simpl. by rewrite Hfk.
    - apply lookup_ge_None in Ha.
      by rewrite (lookup_ge_None_2 attrs' i) by lia. }
  repeat split; apply Hmap; intros a v; by destruct (stored_keeps a v) as (?&?&?&?).
Qed.

Lemma Instance_field_ext values1 values2 attrs i :
  Py.strip <$> values1 !! i = Py.strip <$> values2 !! i ->
  Instance_field values1 attrs i = Instance_field values2 attrs i.
Proof.
  unfold Instance_field, index.
  destruct (values1 !! i) as [r1|], (values2 !! i) as [r2|]; try done.
  intros Heq. injection Heq as Heq. rewrite !bind_ret. by rewrite Heq.
Qed.

Lemma Instance_loop_ext values1 values2 idx : forall attrs fs,
  (forall i, i ∈ idx -> Py.strip <$> values1 !! i = Py.strip <$> values2 !! i) ->
  Instance_loop values1 idx attrs fs = Instance_loop values2 idx attrs fs.
Proof.
  induction idx as [|i idx IH]; intros attrs fs Hext; [done|]. simpl.
  rewrite (Instance_field_ext values1 values2) by (apply Hext; left).
  destruct (Instance_field values2 attrs i) as [e1 [attrs1|e]]; [|done].
  simpl. rewrite IH; [done|]. intros j Hj. apply Hext. by right.
Qed.

(** X5. A row is read through the trimmed text of its first fields only,
    one per attribute: white space around a field does not matter and
    fields beyond the number of attributes are ignored. *)
Theorem X5_row_reads_trimmed_leading_fields defn1 defn2 attrs :
  Py.strip <$> take (length attrs) (Py.split "," defn1)
  = Py.strip <$> take (length attrs) (Py.split "," defn2) ->
  Instance_init defn1 attrs = Instance_init defn2 attrs.
Proof.
  intros Heq. unfold Instance_init.
  rewrite (Instance_loop_ext (Py.split "," defn1) (Py.split "," defn2)); [done|].
  intros i Hi. apply elem_of_seq in Hi as [_ Hi]. simpl in Hi.
  apply (f_equal (fun l => l !! i)) in Heq.
  by rewrite !list_lookup_fmap, !lookup_take_lt in Heq by done.
Qed.

End RowProperties.

(** ** Further properties: declarations and the line loop *)

Section ParserProperties.
Context `{L : PyLib}.

Lemma comment_events_app e1 e2 :
  comment_events (e1 ++ e2) = comment_events e1 ++ comment_events e2.
Proof. apply filter_app. Qed.

Lemma only_prints_no_comments evs : only_prints evs -> comment_events evs = [].
Proof.
  induction 1 as [|ev evs Hev _ IH]; [done|].
  unfold comment_events in *. rewrite filter_cons.
  destruct ev; try discriminate; by rewrite decide_False.
Qed.

(** What a declaration that returns has done to the parser. *)
Lemma parse_declaration_state self line evs self' :
  parse_declaration self line = (evs, Ok self') ->
  header self' = header self /\ instances self' = instances self /\
  sql_formatter self' = sql_formatter self /\ comment_events evs = [] /\
  match dispatch (keyword line) with
  | Some DRelation =>
      is_Some (decl_value line) /\ relation self' = decl_value line /\
      attributes self' = attributes self /\ has_data self' = has_data self
  | Some DAttribute =>
      relation self' = relation self /\ has_data self' = has_data self /\
      exists v a, decl_value line = Some v /\ Attribute_init v = (evs, Ok a) /\
                  attributes self' = attributes self ++ [a]
  | Some DData =>
      is_Some (sql_formatter self) /\ relation self' = relation self /\
      attributes self' = attributes self /\ has_data self' = true
  | Some DOther => self' = self /\ evs = []
  | None => False
  end.
Proof.
  rewrite parse_declaration_dispatch. unfold getlocal, getattr.
  destruct (dispatch (keyword line)) as [[]|].
  - destruct (decl_value line); intros H; inversion H; subst. simpl. eauto 10.
  - destruct (decl_value line) as [v|]; [|intros H; by inversion H].
    rewrite bind_ret. intros H. bind_inv H. inversion H; subst.
    rewrite app_nil_r. simpl. repeat split.
    + apply only_prints_no_comments. eapply Attribute_init_prints; eauto.
    + eauto.
  - destruct (sql_formatter self) eqn:Hfmt; [|intros H; by inversion H].
    rewrite bind_ret.
    destruct (relation self) as [rel|] eqn:Hrel; [|intros H; by inversion H].
    rewrite bind_ret. intros H. bind_inv H. inversion H; subst.
    rewrite app_nil_r. destruct a.
    pose proof (format_create_events _ _ _ _ Hm) as [text ->].
    simpl. repeat split; eauto.
  - intros H; by inversion H.
  - intros H; by inversion H.
Qed.

Lemma formatter_line_state self line evs self' :
  parse_line_formatter self line = (evs, Ok self') ->
  header self' = header self /\ instances self' = instances self /\
  comment_events evs
  = (if is_comment line then [OutComment ("--" +:+ Py.drop_first line)] else []) /\
  relation self'
  = (if is_relation_declaration line then decl_value line else relation self) /\
  length (attributes self')
  = length (attributes self) + (if is_attribute_declaration line then 1 else 0).
Proof.
  rewrite parse_line_formatter_kind.
  unfold is_relation_declaration, is_attribute_declaration. intros H.
  destruct (is_comment line) eqn:Hc.
  { apply line_kinds in Hc as [-> _]. inversion H; subst. simpl.
    repeat split. lia. }
  destruct (is_declaration line) eqn:Hdecl; simpl.
  { apply parse_declaration_state in H as (Hh & Hi & _ & Hce & H).
    split; [done|]. split; [done|]. split; [done|].
    destruct (dispatch (keyword line)) as [[]|]; try done.
    - destruct H as (_ & -> & -> & _). split; [done|lia].
    - destruct H as (-> & _ & v & a & _ & _ & ->).
      split; [done|]. by rewrite length_app.
    - destruct H as (_ & -> & -> & _). split; [done|lia].
    - destruct H as [-> _]. split; [done|lia]. }
  destruct (is_data_line line); [|discriminate].
  destruct (has_data self); [|discriminate].
  unfold getattr, parse_instance in H.
  destruct (relation self) as [rel|] eqn:Hrel; [|discriminate].
  rewrite bind_ret in H. bind_inv H. destruct a as [self1 inst].
  bind_inv Hm. destruct a as [attrs1 inst1]. inversion Hm; subst.
  bind_inv H. inversion H; subst. destruct a.
  pose proof (format_instance_events _ _ _ _ _ Hm1) as [text ->].
  pose proof (Instance_init_prints _ _ _ _ Hm0) as Hp.
  apply Instance_init_Ok in Hm0 as (_ & Hl & _).
  rewrite !app_nil_r, comment_events_app, (only_prints_no_comments _ Hp).
  simpl. repeat split; [done|lia].
Qed.

Lemma formatter_loop_state lines : forall self evs self',
  for_lines parse_line_formatter self lines = (evs, Ok self') ->
  header self' = header self /\ instances self' = instances self /\
  comment_events evs
  = (fun l => OutComment ("--" +:+ Py.drop_first l))
      <$> filter (fun l => is_comment l = true) lines /\
  relation self' = final_relation (relation self) lines /\
  length (attributes self')
  = length (attributes self)
    + length (filter (fun l => is_attribute_declaration l = true) lines) /\
  has_data self' = has_data self || existsb is_data_declaration lines.
Proof.
  induction lines as [|line lines IH]; intros self evs self' H; simpl in H.
  - inversion H; subst. simpl. rewrite orb_false_r. repeat split. lia.
  - bind_inv H. rename a into self1.
    pose proof (formatter_line_Ok _ _ _ _ Hm) as (_ & Hd & _).
    apply formatter_line_state in Hm as (Hh1 & Hi1 & Hc1 & Hr1 & Ha1).
    apply IH in H as (Hh & Hi & Hc & Hr & Ha & Hdata). subst evs.
    rewrite comment_events_app, Hc, Hc1, !filter_cons. simpl.
    split; [congruence|]. split; [congruence|]. split.
    { destruct (is_comment line); [by rewrite decide_True|by rewrite decide_False]. }
    split; [by rewrite Hr, Hr1|]. split.
    { rewrite Ha, Ha1.
      destruct (is_attribute_declaration line);
        [rewrite decide_True by done|rewrite decide_False by done]; simpl; lia. }
    by rewrite Hdata, Hd, orb_assoc.
Qed.

(** X7. With the formatter attached nothing is retained: after a run that
    finishes, the header buffer and the list of instances are still
    empty, and every comment line has been passed on to the formatter, in
    order, as [--] followed by the line without its [%]. *)
Theorem X7_formatter_run_streams lines evs self :
  arff_to_mysql lines = (evs, Ok self) ->
  header self = [] /\ instances self = [] /\
  comment_events evs
  = (fun l => OutComment ("--" +:+ Py.drop_first l))
      <$> filter (fun l => is_comment l = true) lines.
Proof.
  unfold arff_to_mysql, Arff_init, parse_file. simpl. intros H.
  by apply formatter_loop_state in H as (? & ? & ? & _).
Qed.

(** X8. After a run that finishes, the relation name is the one of the
    last [@RELATION] declaration, there is one attribute for each
    [@ATTRIBUTE] declaration, and the data flag tells whether a [@DATA]
    declaration was met. *)
Theorem X8_final_state_from_declarations lines evs self :
  arff_to_mysql lines = (evs, Ok self) ->
  relation self = final_relation None lines /\
  length (attributes self)
  = length (filter (fun l => is_attribute_declaration l = true) lines) /\
  has_data self = existsb is_data_declaration lines.
Proof.
  unfold arff_to_mysql, Arff_init, parse_file. simpl. intros H.
  by apply formatter_loop_state in H as (_ & _ & _ & ? & ? & ?).
Qed.

Lemma plain_line_state self line evs self' :
  parse_line_plain self line = (evs, Ok self') ->
  sql_formatter self = None -> has_data self = false ->
  sql_formatter self' = None /\ has_data self' = false /\
  instances self' = instances self /\
  header self'
  = header self ++ (if is_comment line then [Py.drop_first line] else []) /\
  is_data_declaration line = false /\ only_prints evs.
Proof.
  rewrite parse_line_plain_kind. unfold is_data_declaration.
  intros H Hf Hd.
  destruct (is_comment line) eqn:Hc.
  { apply line_kinds in Hc as [-> _]. inversion H; subst. simpl.
    repeat split; try done. constructor. }
  destruct (is_declaration line) eqn:Hdecl; simpl.
  { pose proof (parse_declaration_events _ _ _ _ H) as Hni.
    assert (only_prints evs) as Hp.
    { rewrite parse_declaration_dispatch in H. unfold getlocal, getattr in H.
      rewrite Hf in H.
      destruct (dispatch (keyword line)) as [[]|]; try discriminate.
      - destruct (decl_value line); inversion H; constructor.
      - destruct (decl_value line); [|discriminate]. rewrite bind_ret in H.
        bind_inv H. inversion H; subst. rewrite app_nil_r.
        eapply Attribute_init_prints; eauto.
      - inversion H; constructor. }
    apply parse_declaration_state in H as (Hh & Hi & Hs & _ & H).
    rewrite app_nil_r.
    destruct (dispatch (keyword line)) as [[]|]; try done.
    - destruct H as (_ & _ & _ & Hd'). repeat split; congruence.
    - destruct H as (_ & Hd' & _). repeat split; congruence.
    - destruct H as ([f Hsome] & _). congruence.
    - destruct H as [-> _]. repeat split; congruence. }
  rewrite app_nil_r.
  destruct (is_data_line line); [|discriminate]. rewrite Hd in H.
  inversion H; subst. repeat split; try done. repeat constructor.
Qed.

(** X6. Without a formatter the parser never reaches the data section: a
    [@DATA] declaration raises [AttributeError], because
    [__parse_declaration] calls [format_create] on the absent formatter.
    So a run that finishes met no [@DATA] line, retained no instance and
    wrote only warnings; its header buffer holds the comment lines, in
    order, each without its [%]. *)
Theorem X6_plain_run_never_reaches_data lines :
  (forall self line,
     sql_formatter self = None -> is_data_declaration line = true ->
     parse_line_plain self line = ([], Raise (AttributeError "format_create"))) /\
  (forall evs self,
     Arff_init lines None = (evs, Ok self) ->
     has_data self = false /\ instances self = [] /\
     header self = Py.drop_first <$> filter (fun l => is_comment l = true) lines /\
     Forall (fun l => is_data_declaration l = false) lines /\
     only_prints evs).
Proof.
  split.
  - intros self line Hf Hdata. unfold is_data_declaration in Hdata.
    apply andb_true_iff in Hdata as [Hdecl Hk].
    rewrite parse_line_plain_kind, (declaration_not_comment _ Hdecl), Hdecl.
    rewrite parse_declaration_dispatch.
    destruct (dispatch (keyword line)) as [[]|]; try discriminate.
    by rewrite Hf.
  - unfold Arff_init, parse_file. simpl.
    set (self0 := mkArff [] [] [] false None None).
    assert (forall lines self evs self',
              for_lines parse_line_plain self lines = (evs, Ok self') ->
              sql_formatter self = None -> has_data self = false ->
              has_data self' = false /\ instances self' = instances self /\
              header self'
              = header self
                ++ (Py.drop_first <$> filter (fun l => is_comment l = true) lines) /\
              Forall (fun l => is_data_declaration l = false) lines /\
              only_prints evs) as Hloop.
    { clear. induction lines as [|line lines IH]; intros self evs self' H Hf Hd;
        simpl in H.
      - inversion H; subst. rewrite app_nil_r. repeat split; try done; constructor.
      - bind_inv H. rename a into self1.
        apply plain_line_state in Hm as (Hf1 & Hd1 & Hi1 & Hh1 & Hnd & Hp1);
          [|done..].
        apply IH in H as (Hd' & Hi & Hh & Hall & Hp); [|done..]. subst evs.
        split; [done|]. split; [congruence|]. split.
        { rewrite Hh, Hh1, filter_cons, <- app_assoc. f_equal.
          destruct (is_comment line);
            [by rewrite decide_True|by rewrite decide_False]. }
        split; [by constructor|]. by apply only_prints_app. }
    intros evs self H. by apply Hloop in H as (? & ? & ? & ? & ?).
Qed.

End ParserProperties.

(** ** Further properties: declarations without value, patterns, attributes *)

Section DeclarationProperties.
Context `{L : PyLib}.

Lemma split1_lacks sep s : lacks_char sep s = true -> Py.split1 sep s = [s].
Proof.
  unfold lacks_char. induction s as [|c s IH]; [done|]. simpl. intros H.
  apply andb_true_iff in H as [Hc H]. apply negb_true_iff in Hc.
  by rewrite Hc, IH.
Qed.

(** X9. A [@RELATION] or [@ATTRIBUTE] line without any space has no
    second component: the local [value] is never assigned and its use
    raises [UnboundLocalError], with or without a formatter. *)
Theorem X9_declaration_without_value self line :
  is_declaration line = true -> lacks_char " " line = true ->
  dispatch (Py.strip line) = Some DRelation \/
  dispatch (Py.strip line) = Some DAttribute ->
  parse_line_formatter self line = ([], Raise (UnboundLocalError "value")) /\
  parse_line_plain self line = ([], Raise (UnboundLocalError "value")).
Proof.
  intros Hdecl Hsp Hk.
  rewrite parse_line_formatter_kind, parse_line_plain_kind.
  rewrite (declaration_not_comment _ Hdecl), Hdecl.
  rewrite parse_declaration_dispatch. unfold keyword, decl_value.
  rewrite (split1_lacks _ _ Hsp).
  by destruct Hk as [-> | ->].
Qed.

(** X10. The keyword of a declaration line and the type token of an
    attribute declaration are compiled as the pattern of [imatches]: when
    the text is not a pattern that compiles, [re.error] leaves the parser
    at the first test of the chain. *)
Theorem X10_text_compiled_as_pattern :
  (forall self line,
     is_declaration line = true ->
     re_compile_match (keyword line) "@RELATION" = None ->
     parse_line_formatter self line = ([], Raise re_error) /\
     parse_line_plain self line = ([], Raise re_error)) /\
  (forall defn t0 t1 rest,
     shlex_split defn = Some (t0 :: t1 :: rest) ->
     re_compile_match t1 "REAL" = None ->
     Attribute_init defn = ([], Raise re_error)).
Proof.
  split.
  - intros self line Hdecl Hre.
    rewrite parse_line_formatter_kind, parse_line_plain_kind.
    rewrite (declaration_not_comment _ Hdecl), Hdecl.
    rewrite parse_declaration_dispatch. unfold dispatch. by rewrite Hre.
  - intros defn t0 t1 rest Hsh Hre. unfold Attribute_init, imatches.
    rewrite Hsh, bind_ret. unfold index. cbn -[bind].
    rewrite !bind_ret. by rewrite Hre.
Qed.

Lemma replace_lacks a b s :
  Ascii.eqb b a = false -> lacks_char a (Py.replace a b s) = true.
Proof.
  unfold lacks_char. intros Hab. induction s as [|c s IH]; [done|]. simpl.
  rewrite IH, andb_true_r. destruct (Ascii.eqb c a) eqn:Hc; by rewrite ?Hab, ?Hc.
Qed.

Lemma Attribute_init_fresh defn evs a :
  Attribute_init defn = (evs, Ok a) ->
  value a = None /\ lacks_char " " (name a) = true /\
  (datatype a = Some NOMINAL <-> is_Some (accepts a)).
Proof.
  revert evs a. unfold Attribute_init.
  apply returns_bind. intros tokens.
  apply returns_bind. intros t0.
  pose proof (replace_lacks " " "_" t0 eq_refl) as Hname.
  assert (forall d, d <> NOMINAL ->
            returns (fun a => value a = None /\ lacks_char " " (name a) = true /\
                              (datatype a = Some NOMINAL <-> is_Some (accepts a)))
              (ret (set_datatype d (mkAttribute None (Py.replace " " "_" t0)
                                      None None None)))) as Hplain.
  { intros d Hd. apply returns_ret. simpl. split; [done|]. split; [done|].
    split; [intros [= ->]; done|intros [? [=]]]. }
  assert (returns (fun a => value a = None /\ lacks_char " " (name a) = true /\
                            (datatype a = Some NOMINAL <-> is_Some (accepts a)))
            (ret (mkAttribute None (Py.replace " " "_" t0) None None None)))
    as Hnone.
  { apply returns_ret. simpl. split; [done|]. split; [done|].
    split; [done|intros [? [=]]]. }
  destruct (Nat.ltb 1 (length tokens)).
  2: { apply returns_bind. intros _. exact Hnone. }
  apply returns_bind. intros t1.
  apply returns_bind. intros [|]; [by apply Hplain|].
  apply returns_bind. intros [|]; [by apply Hplain|].
  apply returns_bind. intros [|]; [by apply Hplain|].
  apply returns_bind. intros [|]; [by apply Hplain|].
  apply returns_bind. intros [|].
  { destruct (Nat.ltb 2 (length tokens)).
    - apply returns_bind. intros t2. apply returns_ret. simpl.
      split; [done|]. split; [done|]. split; [done|intros [? [=]]].
    - apply returns_ret. simpl.
      split; [done|]. split; [done|]. split; [done|intros [? [=]]]. }
  apply returns_bind. intros [|]; [|exact Hnone].
  apply returns_ret. simpl. split; [done|]. split; [done|]. by split; [eauto|].
Qed.

(** X11. An attribute just constructed holds no value, its name has no
    space, and it has a set of accepted values exactly when its type is
    Nominal. *)
Theorem X11_fresh_attribute defn evs a :
  Attribute_init defn = (evs, Ok a) ->
  value a = None /\ lacks_char " " (name a) = true /\
  (datatype a = Some NOMINAL <-> is_Some (accepts a)).
Proof. apply Attribute_init_fresh. Qed.

End DeclarationProperties.

(** ** Further properties: fields *)

Section FieldProperties.
Context `{L : PyLib}.

Lemma concat_cons_char sep c w ws :
  String.concat sep (String c w :: ws) = String c (String.concat sep (w :: ws)).
Proof. by destruct ws. Qed.

Lemma split_join sep s : Py.join (String sep EmptyString) (Py.split sep s) = s.
Proof.
  unfold Py.join. induction s as [|c s IH]; [done|]. simpl.
  destruct (Ascii.eqb c sep) eqn:Hc.
  - apply Ascii.eqb_eq in Hc as ->.
    destruct (Py.split sep s) as [|w ws] eqn:Hs; [by apply split_nonempty in Hs|].
    simpl in *. by rewrite IH.
  - destruct (Py.split sep s) as [|w ws] eqn:Hs; [by apply split_nonempty in Hs|].
    by rewrite concat_cons_char, IH.
Qed.

Lemma split_length sep s : length (Py.split sep s) = S (count_char sep s).
Proof.
  induction s as [|c s IH]; [done|]. simpl.
  destruct (Ascii.eqb c sep); simpl; [by rewrite IH|].
  destruct (Py.split sep s) as [|w ws] eqn:Hs; [by apply split_nonempty in Hs|].
  by rewrite <- IH.
Qed.

(** X12. A row is cut at every comma, quoted or not: joining its raw
    fields with commas gives the line back, their number is one more than
    the number of commas, and a row is only produced when the line has at
    least as many fields as there are attributes. *)
Theorem X12_fields_are_cut_at_every_comma defn attrs evs attrs' inst :
  Instance_init defn attrs = (evs, Ok (attrs', inst)) ->
  Py.join "," (Py.split "," defn) = defn /\
  length (Py.split "," defn) = S (count_char "," defn) /\
  length attrs <= S (count_char "," defn).
Proof.
  intros H. split; [apply split_join|]. split; [apply split_length|].
  rewrite <- split_length. apply Instance_init_Ok in H as (_ & _ & Hv).
  destruct (decide (length attrs = 0)) as [->|Hne]; [lia|].
  destruct (lookup_lt_is_Some_2 attrs (length attrs - 1) ltac:(lia)) as [a Ha].
  destruct (Hv _ _ Ha) as (raw & Hraw & _).
  apply lookup_lt_Some in Hraw. lia.
Qed.

(** X13. What a field that is present and parses is rendered as in the
    statement of its own row: a String field as its trimmed text in
    quotes, whatever the text (quotes of the field included); an accepted
    Nominal field as its text without first and last character, in
    quotes; an Integer or Numeric/Real field as the number printed back,
    without quotes. *)
Theorem X13_present_field_rendering defn attrs evs attrs' inst i a raw :
  Instance_init defn attrs = (evs, Ok (attrs', inst)) ->
  attrs !! i = Some a -> Py.split "," defn !! i = Some raw ->
  is_missing (Py.strip raw) = false ->
  exists a', deref attrs' inst !! i = Some a' /\
    match datatype a with
    | Some STRING => quote_value a' = ret ("'" +:+ Py.strip raw +:+ "'")
    | Some NOMINAL =>
        forall acc, accepts a = Some acc ->
          Py.str_in (Py.slice_1_m1 (Py.strip raw)) acc = true ->
          quote_value a' = ret ("'" +:+ Py.slice_1_m1 (Py.strip raw) +:+ "'")
    | Some INTEGER =>
        forall z, int (Py.strip raw) = Some z -> quote_value a' = ret (pretty z)
    | Some NUMERIC | Some REAL =>
        forall f, float (Py.strip raw) = Some f -> quote_value a' = ret (str_float f)
    | _ => True
    end.
Proof.
  intros H Ha Hraw Hmiss.
  apply Instance_init_Ok in H as (Hf & Hl & Hv).
  destruct (Hv i a Ha) as (raw' & Hraw' & Hi). simplify_eq.
  exists (stored a (Py.strip raw)). split.
  { rewrite deref_all; [done|congruence]. }
  unfold stored, parsed_value. rewrite Hmiss.
  destruct (datatype a) as [[]|] eqn:Hdt; try done.
  - intros f ->. unfold quote_value. simpl. by rewrite Hdt.
  - intros acc -> ->. unfold quote_value. simpl. by rewrite Hdt.
  - unfold quote_value. simpl. by rewrite Hdt.
  - intros z ->. unfold quote_value. simpl. by rewrite Hdt.
  - intros f ->. unfold quote_value. simpl. by rewrite Hdt.
Qed.

End FieldProperties.

(** ** Further properties: the store of attributes *)

Section StoreProperties.
Context `{L : PyLib}.

Lemma renderable_stored a v : renderable a -> renderable (stored a v).
Proof.
  unfold renderable. intros Ha Hv.
  destruct (stored_keeps a v) as (_ & -> & _). unfold stored in Hv.
  destruct (parsed_value a v) eqn:Hp; [|by apply Ha].
  unfold parsed_value in Hp. destruct (is_missing v); [done|].
  destruct (datatype a); [eauto|done].
Qed.

Lemma quote_value_renderable field :
  renderable field -> exists q, quote_value field = ([], Ok q).
Proof.
  unfold renderable, quote_value, getattr.
  destruct (value field); [|eauto]. intros H.
  destruct (H ltac:(eauto)) as [dt ->]. simpl. destruct dt; eauto.
Qed.

Lemma formatter_line_renderable self line evs self' :
  parse_line_formatter self line = (evs, Ok self') ->
  Forall renderable (attributes self) -> Forall renderable (attributes self').
Proof.
  rewrite parse_line_formatter_kind. intros H Hr.
  destruct (is_comment line); [by inversion H; subst|].
  destruct (is_declaration line).
  { apply parse_declaration_state in H as (_ & _ & _ & _ & H).
    destruct (dispatch (keyword line)) as [[]|]; try done.
    - by destruct H as (_ & _ & -> & _).
    - destruct H as (_ & _ & v & a & _ & Hinit & ->).
      apply Forall_app. split; [done|]. constructor; [|done].
      apply Attribute_init_fresh in Hinit as [Hv _].
      unfold renderable. rewrite Hv. by intros [? [=]].
    - by destruct H as (_ & _ & -> & _).
    - by destruct H as [-> _]. }
  destruct (is_data_line line); [|discriminate].
  destruct (has_data self); [|discriminate].
  unfold getattr, parse_instance in H.
  destruct (relation self) as [rel|]; [|discriminate].
  rewrite bind_ret in H. bind_inv H. destruct a as [self1 inst].
  bind_inv Hm. destruct a as [attrs1 inst1]. inversion Hm; subst.
  bind_inv H. inversion H; subst. simpl.
  apply Instance_init_Ok in Hm0 as (_ & Hl & Hv).
  apply Forall_lookup. intros i x' Hx'.
  destruct (lookup_lt_is_Some_2 (attributes self) i) as [x Hx].
  { apply lookup_lt_Some in Hx'. lia. }
  destruct (Hv i x Hx) as (raw & _ & Hi). simplify_eq.
  apply renderable_stored. eapply Forall_lookup_1; eauto.
Qed.

(** X14. In every state the formatter run reaches, an attribute that
    holds a value has a type: rendering the attributes of such a state
    never raises, so [format_instance] writes its statement for every row
    that [Instance.__init__] has produced. *)
Theorem X14_reached_store_always_renders lines evs self table inst :
  arff_to_mysql lines = (evs, Ok self) ->
  fields inst = seq 0 (length (attributes self)) ->
  Forall renderable (attributes self) /\
  exists text,
    format_instance table (attributes self) inst = ([OutInstance text], Ok tt).
Proof.
  unfold arff_to_mysql, Arff_init, parse_file. simpl. intros H Hf.
  assert (Forall renderable (attributes self)) as Hr.
  { assert (forall lines self evs self',
              for_lines parse_line_formatter self lines = (evs, Ok self') ->
              Forall renderable (attributes self) ->
              Forall renderable (attributes self')) as Hloop.
    { clear. induction lines as [|l lines IH]; intros self evs self' H Hr;
        simpl in H; [by inversion H; subst|].
      bind_inv H. eapply IH; [done|]. by eapply formatter_line_renderable. }
    eapply Hloop; [done|]. constructor. }
  split; [done|]. unfold format_instance. rewrite (deref_all _ _ Hf).
  destruct (mapM_total quote_value renderable _ quote_value_renderable Hr)
    as [qs ->].
  simpl. eauto.
Qed.

End StoreProperties.

(** ** The further properties at concrete inputs *)

(** X2 at the nominal attribute of the weather file. *)
Lemma X2_witness_outlook :
  exists longest,
    longest ∈ ["sunny"; "overcast"; "rainy"] /\
    Forall (fun x => String.length x <= String.length longest)
           ["sunny"; "overcast"; "rainy"] /\
    sql_type nominal_attribute
    = ([], Ok (IsStr ("varchar(" +:+ pretty (String.length longest) +:+ ")"))).
Proof.
  apply (X2_nominal_column_fits_every_value nominal_attribute
           ["sunny"; "overcast"; "rainy"] eq_refl eq_refl).
  discriminate.
Defined.

(** X3 at a typed and at an untyped attribute. *)
Lemma X3_witness_typed_and_untyped :
  (exists text,
     format_create "t" [integer_attribute None] = ([OutCreate text], Ok tt)) /\
  (exists e, format_create "t" [untyped_attribute] = ([], Raise e)).
Proof.
  split.
  - apply (proj1 (X3_format_create_all_or_nothing "t" [integer_attribute None])).
    constructor; [|constructor]. left. exact I.
  - apply (proj2 (X3_format_create_all_or_nothing "t" [untyped_attribute])).
    intros H. apply Forall_cons in H as [[Ht|Hd] _]; [exact Ht|discriminate Hd].
Defined.

(** X4 at the row [5] of an integer column. *)
Lemma X4_witness_integer_row :
  name <$> [integer_attribute (Some (VInt 5))] = name <$> [integer_attribute None] /\
  datatype <$> [integer_attribute (Some (VInt 5))]
  = datatype <$> [integer_attribute None].
Proof.
  pose proof (X4_row_changes_values_only "5" [integer_attribute None] []
                [integer_attribute (Some (VInt 5))] (mkInstance [0]) eq_refl)
    as (_ & _ & Hn & Hd & _).
  exact (conj Hn Hd).
Defined.

(** X5 at a row with white space and an extra field. *)
Lemma X5_witness_spaces_and_extra_field :
  Instance_init " 7 ,x" [integer_attribute None]
  = Instance_init "7" [integer_attribute None].
Proof.
  exact (X5_row_reads_trimmed_leading_fields " 7 ,x" "7"
           [integer_attribute None] eq_refl).
Defined.

(** X6 at a [@DATA] line and at a file of one comment. *)
Lemma X6_witness_no_formatter :
  parse_line_plain (initial_arff None) (line "@DATA")
  = ([], Raise (AttributeError "format_create")) /\
  header (mkArff [Py.drop_first (line "% note")] [] [] false None None)
  = Py.drop_first <$> filter (fun l => is_comment l = true) [line "% note"].
Proof.
  split.
  - exact (proj1 (X6_plain_run_never_reaches_data [])
             (initial_arff None) (line "@DATA") eq_refl eq_refl).
  - pose proof (proj2 (X6_plain_run_never_reaches_data [line "% note"]) []
                  (mkArff [Py.drop_first (line "% note")] [] [] false None None)
                  eq_refl) as (_ & _ & H & _).
    exact H.
Defined.

(** X7 at a file of one comment. *)
Lemma X7_witness_comment :
  comment_events [OutComment ("--" +:+ Py.drop_first (line "% note"))]
  = (fun l => OutComment ("--" +:+ Py.drop_first l))
      <$> filter (fun l => is_comment l = true) [line "% note"].
Proof.
  pose proof (X7_formatter_run_streams [line "% note"]
                [OutComment ("--" +:+ Py.drop_first (line "% note"))]
                (initial_arff (Some MySQLFormatter)) eq_refl) as (_ & _ & H).
  exact H.
Defined.

(** X8 at a file naming the relation twice. *)
Lemma X8_witness_two_relations :
  relation (mkArff [] [] [] false (Some MySQLFormatter) (Some "b"))
  = final_relation None [line "@RELATION a"; line "@RELATION b"].
Proof.
  pose proof (X8_final_state_from_declarations
                [line "@RELATION a"; line "@RELATION b"] []
                (mkArff [] [] [] false (Some MySQLFormatter) (Some "b"))
                eq_refl) as (H & _).
  exact H.
Defined.

(** X9 at the line [@RELATION] alone. *)
Lemma X9_witness_relation_alone :
  parse_line_formatter (initial_arff (Some MySQLFormatter)) (line "@RELATION")
  = ([], Raise (UnboundLocalError "value")) /\
  parse_line_plain (initial_arff (Some MySQLFormatter)) (line "@RELATION")
  = ([], Raise (UnboundLocalError "value")).
Proof.
  exact (X9_declaration_without_value (initial_arff (Some MySQLFormatter))
           (line "@RELATION") eq_refl eq_refl (or_introl eq_refl)).
Defined.

(** X10 at a keyword with an open parenthesis and at the set [{0,1}]. *)
Lemma X10_witness_broken_patterns :
  parse_line_formatter (initial_arff (Some MySQLFormatter)) (line "@(x")
  = ([], Raise re_error) /\
  Attribute_init "class {0,1}" = ([], Raise re_error).
Proof.
  split.
  - exact (proj1 (proj1 X10_text_compiled_as_pattern
                    (initial_arff (Some MySQLFormatter)) (line "@(x")
                    eq_refl eq_refl)).
  - exact (proj2 X10_text_compiled_as_pattern "class {0,1}"
             "class" "{0,1}" [] eq_refl eq_refl).
Defined.

(** X11 at a declaration with a quoted name. *)
Lemma X11_witness_quoted_name :
  lacks_char " " (name (mkAttribute None "my_name" (Some STRING) None None)) = true.
Proof.
  pose proof (X11_fresh_attribute "'my name' STRING" []
                (mkAttribute None "my_name" (Some STRING) None None) eq_refl)
    as (_ & H & _).
  exact H.
Defined.

(** X12 at a row of two fields for one attribute. *)
Lemma X12_witness_two_fields :
  length [integer_attribute None] <= S (count_char "," "5,6").
Proof.
  pose proof (X12_fields_are_cut_at_every_comma "5,6" [integer_attribute None] []
                [integer_attribute (Some (VInt 5))] (mkInstance [0]) eq_refl)
    as (_ & _ & H).
  exact H.
Defined.

(** X13 at a quoted field of a String column. *)
Lemma X13_witness_quoted_string :
  exists a',
    deref [string_attribute (Some (VStr "'abc'"))] (mkInstance [0]) !! 0 = Some a' /\
    quote_value a' = ret ("'" +:+ Py.strip "'abc'" +:+ "'").
Proof.
  exact (X13_present_field_rendering "'abc'" [string_attribute None] []
           [string_attribute (Some (VStr "'abc'"))] (mkInstance [0]) 0
           (string_attribute None) "'abc'" eq_refl eq_refl eq_refl eq_refl).
Defined.

(** X14 at the weather file with its nominal value quoted. *)
Lemma X14_witness_weather_quoted :
  exists text,
    format_instance "weather"
      [set_value (VStr "sunny") nominal_attribute;
       mkAttribute (Some (VFloat (Ref.mkDecimal false "85" EmptyString)))
         "temperature" (Some NUMERIC) None None]
      (mkInstance [0; 1])
    = ([OutInstance text], Ok tt).
Proof.
  exact (proj2 (X14_reached_store_always_renders weather_quoted
                  [OutCreate weather_create;
                   OutInstance (line "INSERT INTO weather VALUES('sunny', 85.0);")]
                  (mkArff [] []
                     [set_value (VStr "sunny") nominal_attribute;
                      mkAttribute (Some (VFloat (Ref.mkDecimal false "85" EmptyString)))
                        "temperature" (Some NUMERIC) None None]
                     true (Some MySQLFormatter) (Some "weather"))
                  "weather" (mkInstance [0; 1]) eq_refl eq_refl)).
Defined.

(** ** Stale values in the statements of later rows *)

Section SharedAttributes.
Context `{L : PyLib}.

Lemma parsed_value_stored a v w : parsed_value (stored a v) w = parsed_value a w.
Proof.
  unfold parsed_value. by destruct (stored_keeps a v) as (_ & -> & _ & ->).
Qed.

Lemma stored_value a v x :
  parsed_value a v = Some x ->
  value (stored a v) = Some x /\ quote_value (stored a v) = ret (rendered_value x).
Proof.
  intros Hp. unfold stored. rewrite Hp. split; [done|].
  unfold parsed_value in Hp. destruct (is_missing v); [done|].
  unfold quote_value. simpl.
  destruct (datatype a) as [[]|]; try done; simpl.
  - by destruct (float v); simplify_eq/=.
  - destruct (accepts a); [|done]. by destruct (Py.str_in _ _); simplify_eq/=.
  - by simplify_eq/=.
  - by destruct (int v); simplify_eq/=.
  - by destruct (float v); simplify_eq/=.
Qed.

Lemma Instance_init_renderable defn attrs evs attrs' inst :
  Instance_init defn attrs = (evs, Ok (attrs', inst)) ->
  Forall renderable attrs -> Forall renderable attrs'.
Proof.
  intros H Hr. apply Instance_init_Ok in H as (_ & Hl & Hv).
  apply Forall_lookup. intros i x' Hx'.
  destruct (lookup_lt_is_Some_2 attrs i) as [x Hx].
  { apply lookup_lt_Some in Hx'. lia. }
  destruct (Hv i x Hx) as (raw & _ & Hi). simplify_eq.
  apply renderable_stored. eapply Forall_lookup_1; eauto.
Qed.

Lemma mapM_quote_value_lookup l :
  Forall renderable l ->
  exists texts,
    mapM quote_value l = ([], Ok texts) /\
    forall i a, l !! i = Some a ->
      exists t, texts !! i = Some t /\ quote_value a = ret t.
Proof.
  induction 1 as [|a l Ha _ (texts & Hm & Hl)]; simpl.
  - exists []. split; [done|]. intros i a Hi. by rewrite lookup_nil in Hi.
  - destruct (quote_value_renderable a Ha) as [q Hq].
    exists (q :: texts). rewrite Hq, Hm. split; [done|].
    intros [|i] a' Hi; simpl in *; [simplify_eq; eauto|by apply Hl].
Qed.

(** C9. The fields of an Instance are the parser's own Attribute objects,
    not copies; parsing a field stores its value in the shared object.
    After two rows, every column holds the value of the last field that
    was present and parsed (a field that is missing or does not parse
    leaves what the earlier row stored), and the Instance made from the
    first row reads, and is rendered with, the same values as the
    Instance made from the second.  In particular, where the first row
    stored a value and the field of the second row is missing or does
    not parse, both Instances hold that value and it is rendered, quoted
    for a string and bare for a number, in the statement of either. *)
Theorem C9_instances_share_attribute_objects
    row1 row2 attrs0 evs1 attrs1 inst1 evs2 attrs2 inst2 :
  Instance_init row1 attrs0 = (evs1, Ok (attrs1, inst1)) ->
  Instance_init row2 attrs1 = (evs2, Ok (attrs2, inst2)) ->
  deref attrs1 inst1 = attrs1 /\
  deref attrs2 inst2 = attrs2 /\
  deref attrs2 inst1 = attrs2 /\
  (forall table, format_instance table attrs2 inst1
                 = format_instance table attrs2 inst2) /\
  (forall i a1, attrs1 !! i = Some a1 ->
    exists raw2, Py.split "," row2 !! i = Some raw2 /\
      attrs2 !! i = Some (stored a1 (Py.strip raw2)) /\
      (parsed_value a1 (Py.strip raw2) = None ->
       (deref attrs2 inst1) !! i = Some a1 /\
       quote_value (stored a1 (Py.strip raw2)) = quote_value a1)) /\
  (forall i a0 raw1 raw2 x,
     attrs0 !! i = Some a0 ->
     Py.split "," row1 !! i = Some raw1 -> Py.split "," row2 !! i = Some raw2 ->
     parsed_value a0 (Py.strip raw1) = Some x ->
     parsed_value a0 (Py.strip raw2) = None ->
     exists a2,
       deref attrs2 inst1 !! i = Some a2 /\ deref attrs2 inst2 !! i = Some a2 /\
       value a2 = Some x /\ quote_value a2 = ret (rendered_value x)) /\
  (Forall renderable attrs0 ->
   forall table, exists texts,
     format_instance table attrs2 inst1
     = ([OutInstance ("INSERT INTO " +:+ table +:+ " VALUES(" +:+
                      Py.join ", " texts +:+ ");" +:+ Py.nl)], Ok tt) /\
     format_instance table attrs2 inst2
     = ([OutInstance ("INSERT INTO " +:+ table +:+ " VALUES(" +:+
                      Py.join ", " texts +:+ ");" +:+ Py.nl)], Ok tt) /\
     forall i a2, deref attrs2 inst2 !! i = Some a2 ->
       exists t, texts !! i = Some t /\ quote_value a2 = ret t).
Proof.
  intros H1 H2.
  pose proof (Instance_init_renderable _ _ _ _ _ H1) as Hr1.
  pose proof (Instance_init_renderable _ _ _ _ _ H2) as Hr2.
  apply Instance_init_Ok in H1 as (Hf1 & Hl1 & Hv1).
  apply Instance_init_Ok in H2 as (Hf2 & Hl2 & Hv2).
  assert (deref attrs2 inst1 = attrs2) as Hd1 by (apply deref_all; congruence).
  assert (deref attrs2 inst2 = attrs2) as Hd2 by (apply deref_all; congruence).
  split; [apply deref_all; congruence|].
  split; [done|]. split; [done|].
  split.
  { intros table. unfold format_instance. by rewrite Hd1, Hd2. }
  split.
  { intros i a1 Ha1. destruct (Hv2 i a1 Ha1) as (raw2 & Hraw & Hi).
    exists raw2. split; [done|]. split; [done|].
    intros Hnone. rewrite Hd1, Hi. unfold stored. by rewrite Hnone. }
  split.
  { intros i a0 raw1 raw2 x Ha0 Hraw1 Hraw2 Hp1 Hp2.
    destruct (Hv1 i a0 Ha0) as (raw1' & ? & Hi1). simplify_eq.
    destruct (Hv2 i _ Hi1) as (raw2' & ? & Hi2). simplify_eq.
    destruct (stored_value _ _ _ Hp1) as [Hval Hq].
    exists (stored a0 (Py.strip raw1)). rewrite Hd1, Hd2.
    assert (stored (stored a0 (Py.strip raw1)) (Py.strip raw2)
            = stored a0 (Py.strip raw1)) as Hsame.
    { unfold stored at 1. by rewrite parsed_value_stored, Hp2. }
    rewrite Hsame in Hi2. done. }
  intros Hr0 table.
  destruct (mapM_quote_value_lookup attrs2 (Hr2 (Hr1 Hr0))) as (texts & Hm & Hl).
  exists texts. unfold format_instance. rewrite Hd1, Hd2, Hm. simpl.
  split; [done|]. split; [done|]. done.
Qed.

End SharedAttributes.

(** C9 at the rows [5] and [?] of an integer column: the second
    statement renders the [5] of the first row. *)
Lemma C9_witness_value_then_missing :
  Instance_init "5" [integer_attribute None]
  = ([], Ok ([integer_attribute (Some (VInt 5))], mkInstance [0])) /\
  Instance_init "?" [integer_attribute (Some (VInt 5))]
  = ([], Ok ([integer_attribute (Some (VInt 5))], mkInstance [0])) /\
  deref [integer_attribute (Some (VInt 5))] (mkInstance [0])
  = [integer_attribute (Some (VInt 5))] /\
  exists a2,
    deref [integer_attribute (Some (VInt 5))] (mkInstance [0]) !! 0 = Some a2 /\
    value a2 = Some (VInt 5) /\
    quote_value a2 = ret "5".
Proof.
  split; [reflexivity|]. split; [reflexivity|].
  pose proof (C9_instances_share_attribute_objects "5" "?"
                [integer_attribute None]
                [] [integer_attribute (Some (VInt 5))] (mkInstance [0])
                [] [integer_attribute (Some (VInt 5))] (mkInstance [0])
                eq_refl eq_refl) as (_ & _ & H & _ & _ & Hstale & _).
  split; [exact H|].
  destruct (Hstale 0 (integer_attribute None) "5" "?" (VInt 5)
              eq_refl eq_refl eq_refl eq_refl eq_refl) as (a2 & _ & Ha2 & Hv & Hq).
  exists a2. exact (conj Ha2 (conj Hv Hq)).
Defined.
